(** * recurrent-plus: the recurrence-rule pipeline of [recurrence_rule.py]

    A shallow embedding of [src/recurrent/recurrence_rule.py]: the
    granularity check, the construction hook of [RecurrenceRule], the
    start/end reconciliation and the two serializers, followed by the
    properties the specification states about them.

    Conventions.
    - Python [str] values are Rocq [string]s and are read as ASCII text.
    - A Python exception is a value of [exn]; a computation that may raise
      returns a [result], which also records a computation that does not
      return.
    - The collaborators that live outside the file (the natural-language
      engine of [recurrent.event_parser], [dateutil.rrule.rrulestr], the
      iteration of a dateutil rule, the text renderings of a datetime) are
      the fields of a record, [Collaborators], that the pipeline takes as
      an argument; the iteration of a rule may stop, raise, hang or go on
      without end. Logging is left out. *)

From Stdlib Require Import ZArith List String Ascii Bool Lia.
Import ListNotations.

Local Open Scope string_scope.
Local Open Scope Z_scope.


(* ===================================================================== *)
(** ** Exceptions and results *)

Inductive exn : Type :=
| ValueError (msg : string)
| TypeError (msg : string)
| AssertionError (msg : string)
| AttributeError (msg : string)
| IndexError (msg : string)
| OverflowError (msg : string)
| MemoryError (msg : string).

(** What a computation comes to: a value, an exception, or no return at
    all (a loop of a collaborator that never ends). *)
Inductive result (A : Type) : Type :=
| Ok (a : A)
| Raise (e : exn)
| Diverges.

Arguments Ok {A} a.
Arguments Raise {A} e.
Arguments Diverges {A}.

Definition rbind {A B : Type} (r : result A) (k : A -> result B) : result B :=
  match r with
  | Ok a => k a
  | Raise e => Raise e
  | Diverges => Diverges
  end.

Definition rmap {A B : Type} (f : A -> B) (r : result A) : result B :=
  rbind r (fun a => Ok (f a)).

(* ===================================================================== *)
(** ** Python strings (ASCII) *)

Module Str.

(** [s.upper()] on ASCII text: the letters a..z move to A..Z. *)
Definition upper_char (c : ascii) : ascii :=
  let n := nat_of_ascii c in
  if (Nat.leb 97 n && Nat.leb n 122)%bool then ascii_of_nat (n - 32) else c.

Fixpoint upper (s : string) : string :=
  match s with
  | EmptyString => EmptyString
  | String c rest => String (upper_char c) (upper rest)
  end.

(** [sub in s]: [sub] occurs in [s] as a contiguous run. *)
Fixpoint contains (sub s : string) : bool :=
  if prefix sub s then true
  else match s with
       | EmptyString => false
       | String _ rest => contains sub rest
       end.

(** The relation that [contains] decides. *)
Definition Occurs (sub s : string) : Prop :=
  exists pre post, s = pre ++ sub ++ post.

(** [token] occurs in [s] up to the case of ASCII letters. *)
Definition OccursNoCase (token s : string) : Prop :=
  exists pre mid post, s = pre ++ mid ++ post /\ upper mid = upper token.

(** The ASCII line boundaries of [str.splitlines]:
    LF, VT, FF, CR, FS, GS, RS. *)
Definition is_linebreak (c : ascii) : bool :=
  let n := nat_of_ascii c in
  (Nat.eqb n 10 || Nat.eqb n 11 || Nat.eqb n 12 || Nat.eqb n 13
   || Nat.eqb n 28 || Nat.eqb n 29 || Nat.eqb n 30)%bool.

Definition CR : ascii := ascii_of_nat 13.
Definition LF : ascii := ascii_of_nat 10.

(** [s.splitlines()]: the lines of [s] without their terminators; CR LF
    is one terminator; a final terminator opens no further line. *)
Fixpoint splitlines (s : string) : list string :=
  match s with
  | EmptyString => []
  | String c rest =>
      if is_linebreak c then
        match rest with
        | String c' rest' =>
            if (Ascii.eqb c CR && Ascii.eqb c' LF)%bool
            then EmptyString :: splitlines rest'
            else EmptyString :: splitlines rest
        | EmptyString => [EmptyString]
        end
      else
        match splitlines rest with
        | [] => [String c EmptyString]
        | l :: ls => String c l :: ls
        end
  end.

(** [sep.join(parts)] *)
Definition join (sep : string) (parts : list string) : string :=
  String.concat sep parts.

Definition NL : string := String LF EmptyString.

End Str.

(* ===================================================================== *)
(** ** Dates, datetimes and time zones

    A [date] is its proleptic Gregorian ordinal ([date.toordinal()]);
    Python represents the ordinals [1 .. 3652059] (years 1 to 9999).
    A [datetime] is a date, the microsecond of the day and an optional
    [tzinfo]; it is aware when the [tzinfo] is present. A [tzinfo] gives
    the UTC offset, in microseconds, of a local wall-clock reading (every
    zone modelled here reports an offset). *)

Definition date := Z.

Definition MINORD : Z := 1.
Definition MAXORD : Z := 3652059.
Definition DAY_US : Z := 86400000000.

Record tzinfo : Type := mk_tzinfo {
  utcoffset : Z -> Z -> Z   (* ordinal, microsecond of day |-> offset *)
}.

Definition UTC : tzinfo := mk_tzinfo (fun _ _ => 0).

Record datetime : Type := mk_datetime {
  dt_ordinal : Z;
  dt_micros : Z;
  dt_tzinfo : option tzinfo
}.

(** [dt.date()] *)
Definition datetime_date (dt : datetime) : date := dt_ordinal dt.

(** Microseconds since ordinal 0, 00:00 on the wall clock of [dt]. *)
Definition wall_us (dt : datetime) : Z := dt_ordinal dt * DAY_US + dt_micros dt.

(** The same instant counted on the UTC clock (aware datetimes). *)
Definition utc_us (dt : datetime) (tz : tzinfo) : Z :=
  wall_us dt - utcoffset tz (dt_ordinal dt) (dt_micros dt).

Definition in_date_range (ord : Z) : bool :=
  (MINORD <=? ord) && (ord <=? MAXORD).

Definition date_out_of_range : exn := OverflowError "date value out of range".

(** [dt.astimezone(ZoneInfo("UTC"))] for an aware [dt]: the offset is
    subtracted, which raises [OverflowError] when the result leaves the
    representable years, and the UTC zone is attached. *)
Definition astimezone_utc (dt : datetime) (tz : tzinfo) : result datetime :=
  let u := utc_us dt tz in
  if in_date_range (u / DAY_US)
  then Ok (mk_datetime (u / DAY_US) (u mod DAY_US) (Some UTC))
  else Raise date_out_of_range.

(** [dt + timedelta(days)]: a whole number of days is added to the wall
    clock reading; the zone is kept; leaving the representable years
    raises [OverflowError]. *)
Definition add_days (dt : datetime) (days : Z) : result datetime :=
  let ord := dt_ordinal dt + days in
  if in_date_range ord
  then Ok (mk_datetime ord (dt_micros dt) (dt_tzinfo dt))
  else Raise date_out_of_range.

(** [a == b] on datetimes: two naive values compare their fields, two
    aware values compare their instants, a naive and an aware value are
    never equal. *)
Definition datetime_eqb (a b : datetime) : bool :=
  match dt_tzinfo a, dt_tzinfo b with
  | None, None => (dt_ordinal a =? dt_ordinal b) && (dt_micros a =? dt_micros b)
  | Some ta, Some tb => utc_us a ta =? utc_us b tb
  | _, _ => false
  end.

(* ===================================================================== *)
(** ** The rule model of dateutil, as far as this file inspects it *)

(** The frequency constants of [dateutil.rrule]:
    [(YEARLY, ..., SECONDLY) = range(7)]. *)
Inductive freq : Type :=
| YEARLY | MONTHLY | WEEKLY | DAILY | HOURLY | MINUTELY | SECONDLY.

Definition freq_code (f : freq) : nat :=
  match f with
  | YEARLY => 0 | MONTHLY => 1 | WEEKLY => 2 | DAILY => 3
  | HOURLY => 4 | MINUTELY => 5 | SECONDLY => 6
  end%nat.

Definition FREQNAMES : list string :=
  ["YEARLY"; "MONTHLY"; "WEEKLY"; "DAILY"; "HOURLY"; "MINUTELY"; "SECONDLY"].

Definition freq_eqb (a b : freq) : bool := Nat.eqb (freq_code a) (freq_code b).

(** A by-field holds [None], a tuple of integers, or a set of integers
    (dateutil stores the defaults it derives from the anchor,
    [_byhour = {dtstart.hour}] and [_byminute = {dtstart.minute}], as
    sets); the members of a set are listed in increasing order. [None],
    the empty tuple and the empty set are falsy. *)
Inductive byfield : Type :=
| ByNone
| ByTuple (items : list Z)
| BySet (items : list Z).

Definition truthy (b : byfield) : bool :=
  match b with
  | ByTuple (_ :: _) | BySet (_ :: _) => true
  | _ => false
  end.

(** The private attributes of a dateutil [rrule] that the file reads. *)
Record rrule : Type := mk_rrule {
  _freq : freq;
  _interval : Z;
  _count : option Z;
  _until : option datetime;
  _byweekday : byfield;
  _bymonthday : byfield;
  _bymonth : byfield;
  _byhour : byfield;
  _byminute : byfield;
  _bysecond : byfield;
  _dtstart : option datetime;
  _bysetpos : byfield
}.

(** A dateutil [rruleset]: inclusion rules and dates, exclusion rules and
    dates. *)
Record rruleset : Type := mk_rruleset {
  _rrule : list rrule;
  _rdate : list datetime;
  _exrule : list rrule;
  _exdate : list datetime
}.

(** What [rrulestr] returns: a single rule or a rule set. *)
Inductive rule_model : Type :=
| Single (r : rrule)
| Composite (s : rruleset).

(** Any Python object handed to [is_daily_or_greater]. *)
Inductive pyobj : Type :=
| Model (m : rule_model)
| NotAModel.

(* ===================================================================== *)
(** ** The granularity check *)

Definition _TIME_FREQS : list freq := [HOURLY; MINUTELY; SECONDLY].

(** [_rule_has_time_components]: only [_freq] is looked at; the loop over
    the by-hour, by-minute and by-second attributes is commented out in
    the source. *)
Definition _rule_has_time_components (rule : rrule) : bool :=
  if existsb (freq_eqb (_freq rule)) _TIME_FREQS then true else false.

(** The [for r in obj._rrule] loop of [is_daily_or_greater], with its
    early [return False]. *)
Fixpoint scan_rrules (rs : list rrule) : bool :=
  match rs with
  | [] => true
  | r :: rest => if _rule_has_time_components r then false else scan_rrules rest
  end.

Definition is_daily_or_greater (obj : pyobj) : result bool :=
  match obj with
  | Model (Single r) => Ok (negb (_rule_has_time_components r))
  | Model (Composite s) => Ok (scan_rrules (_rrule s))
  | NotAModel => Raise (TypeError "Expected rrule or rruleset")
  end.

(** The constituent sub-rules of a rule model: the rule itself, or the
    inclusion rules of the set. *)
Definition sub_rules (m : rule_model) : list rrule :=
  match m with
  | Single r => [r]
  | Composite s => _rrule s
  end.

(** A declared frequency below the day. *)
Definition sub_daily (f : freq) : Prop :=
  f = HOURLY \/ f = MINUTELY \/ f = SECONDLY.

(** A declared frequency of a day or more. *)
Definition daily_or_coarser (f : freq) : Prop :=
  f = YEARLY \/ f = MONTHLY \/ f = WEEKLY \/ f = DAILY.

(* ===================================================================== *)
(** ** Python values that the serializers build *)

#[warnings="-register-all"] Inductive pyval : Type :=
| PyNone
| PyInt (z : Z)
| PyStr (s : string)
| PyList (items : list pyval)
| PyTuple (items : list pyval)
| PySet (items : list pyval)
| PyDict (entries : list (string * pyval)).

(** A [dict] literal, in insertion order. *)
Definition pydict := list (string * pyval).

Definition is_not_None (v : pyval) : bool :=
  match v with
  | PyNone => false
  | _ => true
  end.

(** [x if x else None] on a by-field: the attribute itself, tuple or
    set, when it is not empty. *)
Definition by_or_None (b : byfield) : pyval :=
  match b with
  | ByTuple (x :: xs) => PyTuple (map PyInt (x :: xs))
  | BySet (x :: xs) => PySet (map PyInt (x :: xs))
  | _ => PyNone
  end.

Definition int_or_None (c : option Z) : pyval :=
  match c with
  | Some z => PyInt z
  | None => PyNone
  end.

(** The twelve keys of [rrule_to_dict], in the order of the literal. *)
Definition RULE_KEYS : list string :=
  ["freq"; "interval"; "count"; "until"; "byweekday"; "bymonthday";
   "bymonth"; "byhour"; "byminute"; "bysecond"; "dtstart"; "bysetpos"].

(** Neither [None] nor an empty list, tuple or set. *)
Definition present (v : pyval) : Prop :=
  v <> PyNone /\ v <> PyList [] /\ v <> PyTuple [] /\ v <> PySet [].

(** A [list] of ISO timestamps. *)
Definition timestamp_list (v : pyval) : Prop :=
  exists stamps : list string, v = PyList (map PyStr stamps).

(* ===================================================================== *)
(** ** Iterating a rule model

    What [iter(rule)] of dateutil does when it is consumed: it yields
    datetimes one after the other and then stops ([Stop]), raises
    ([Throw]: dateutil does not check a rule when it is built, and the
    loop of [_iter] raises [ValueError] on some combinations of interval
    and by-fields), never delivers the next item ([Hang]: an interval of
    0 with a filter that the current day never passes), or goes on
    yielding without end ([Forever]: an interval of 0 repeats the same
    datetimes). *)

Inductive iteration : Type :=
| Stop
| Yield (d : datetime) (rest : iteration)
| Throw (e : exn)
| Hang
| Forever (f : nat -> datetime).

(** An iteration that yields the items of [l] and stops. *)
Fixpoint of_list (l : list datetime) : iteration :=
  match l with
  | [] => Stop
  | d :: l' => Yield d (of_list l')
  end.

(** The first [k] items that the iteration yields; fewer when it stops,
    raises or hangs before. *)
Fixpoint first_items (k : nat) (it : iteration) : list datetime :=
  match k with
  | O => []
  | S k' =>
      match it with
      | Yield d rest => d :: first_items k' rest
      | Forever f => f O :: first_items k' (Forever (fun i => f (S i)))
      | _ => []
      end
  end.

(** The iteration that yields the items of [l] and then goes on as
    [tail]. *)
Fixpoint then_ (l : list datetime) (tail : iteration) : iteration :=
  match l with
  | [] => tail
  | d :: l' => Yield d (then_ l' tail)
  end.

(** The number of items that the iteration yields; [None] when it yields
    without end. *)
Fixpoint occurrence_count (it : iteration) : option nat :=
  match it with
  | Yield _ rest => option_map S (occurrence_count rest)
  | Forever _ => None
  | _ => Some O
  end.

(** [min(n, c)] where [c] may be without bound. *)
Definition min_count (n : nat) (c : option nat) : nat :=
  match c with
  | Some a => Nat.min n a
  | None => n
  end.

(** [n <= c] where [c] may be without bound. *)
Definition within_count (n : nat) (c : option nat) : Prop :=
  match c with
  | Some a => (n <= a)%nat
  | None => True
  end.

(* ===================================================================== *)
(** ** Collaborators outside the file *)

(** What [RecurringEvent.parse] leaves behind on the engine object. *)
Record RecurringEvent : Type := mk_RecurringEvent {
  is_recurring : bool;
  get_RFC_rrule : string;
  dtstart : option datetime
}.

Record Collaborators : Type := mk_Collaborators {
  (** [RE_STARTING.search(s)] found a match *)
  RE_STARTING_search : string -> bool;
  (** [RecurringEvent(now_date=now, until_days_inclusive=False)] followed
      by [parse(phrase)] *)
  nl_parse : datetime -> string -> result RecurringEvent;
  (** [rrulestr(text, dtstart=dt)] of dateutil *)
  rrulestr : string -> datetime -> result rule_model;
  (** what iterating the rule model does: [iter(rr)] of dateutil *)
  iterate : rule_model -> iteration;
  (** [str(dt)], [dt.isoformat()], [repr(s)] *)
  str_datetime : datetime -> string;
  isoformat : datetime -> string;
  repr_str : string -> string
}.

(** Calls into the two engines, in the order they are made. *)
Inductive call : Type :=
| NLParse (now : datetime) (phrase : string)
| RRuleStr (text : string) (anchor : datetime).

Definition is_NLParse (c : call) : bool :=
  match c with
  | NLParse _ _ => true
  | RRuleStr _ _ => false
  end.

(** A computation that logs its engine calls and may raise or not
    return. *)
Definition M (A : Type) : Type := (list call * result A)%type.

Definition ret {A : Type} (a : A) : M A := ([], Ok a).
Definition raise {A : Type} (e : exn) : M A := ([], Raise e).
Definition lift {A : Type} (r : result A) : M A := ([], r).
Definition invoke {A : Type} (c : call) (r : result A) : M A := ([c], r).

Definition bind {A B : Type} (m : M A) (k : A -> M B) : M B :=
  match m with
  | (log, Ok a) => ((log ++ fst (k a))%list, snd (k a))
  | (log, Raise e) => (log, Raise e)
  | (log, Diverges) => (log, Diverges)
  end.

Declare Scope pipeline_scope.
Delimit Scope pipeline_scope with pipeline.
Notation "x <- m ;; k" := (bind m (fun x => k))
  (at level 61, m at next level, right associativity) : pipeline_scope.
Notation "m ;;; k" := (bind m (fun _ => k))
  (at level 61, right associativity) : pipeline_scope.

(** [sys.maxsize] on a 64-bit build. *)
Definition sys_maxsize : Z := 2 ^ 63 - 1.

(** The largest number of items a CPython list holds on a 64-bit build
    ([PY_SSIZE_T_MAX / sizeof(PyObject* )]). *)
Definition LIST_MAX : Z := sys_maxsize / 8.

Definition list_too_long : exn := MemoryError "".

(** The two messages of [itertools.islice] for a stop it does not
    accept. *)
Definition islice_stop_error : exn :=
  ValueError
    "Stop argument for islice() must be None or an integer: 0 <= x <= sys.maxsize.".

Definition islice_indices_error : exn :=
  ValueError
    "Indices for islice() must be None or an integer: 0 <= x <= sys.maxsize.".

(** [list(itertools.islice(it, 0, stop, 1))] for an accepted [stop]: items
    are asked for one at a time until [stop] of them have come or the
    iteration stops; an exception of the iteration comes through; an
    iteration that hangs is never left; an iteration without end is cut at
    [stop], unless the list would pass the size a list can have, which
    raises [MemoryError] (an actual machine gives up earlier). *)
Fixpoint islice_list (stop : Z) (it : iteration) : result (list datetime) :=
  match it with
  | Stop => Ok []
  | Yield d rest =>
      if stop <=? 0 then Ok []
      else rmap (cons d) (islice_list (stop - 1) rest)
  | Throw e => if stop <=? 0 then Ok [] else Raise e
  | Hang => if stop <=? 0 then Ok [] else Diverges
  | Forever f =>
      if stop <=? LIST_MAX then Ok (first_items (Z.to_nat stop) (Forever f))
      else Raise list_too_long
  end.

(** [rr[:stop]], that is [rrulebase.__getitem__(slice(None, stop, None))]
    of dateutil on a rule without cache:
    [list(itertools.islice(self, item.start or 0,
                           item.stop or sys.maxsize, item.step or 1))].
    A [stop] of 0 is falsy and is replaced by [sys.maxsize]. [islice]
    (CPython 3.11) refuses a stop of -1 and a stop that does not fit a
    [Py_ssize_t] with the "Stop argument" message, and any other stop
    below -1 with the "Indices" message, before it touches the
    iteration. *)
Definition getitem_slice (it : iteration) (stop : Z) : result (list datetime) :=
  let stop' := if stop =? 0 then sys_maxsize else stop in
  if (stop' =? -1) || (sys_maxsize <? stop') || (stop' <? - sys_maxsize - 1)
  then Raise islice_stop_error
  else if stop' <? -1 then Raise islice_indices_error
  else islice_list stop' it.

(** Order of two datetimes of one kind (both naive or both aware). *)
Definition datetime_lt (a b : datetime) : Prop :=
  match dt_tzinfo a, dt_tzinfo b with
  | None, None => wall_us a < wall_us b
  | Some ta, Some tb => utc_us a ta < utc_us b tb
  | _, _ => False
  end.

Inductive strictly_ascending : list datetime -> Prop :=
| asc_nil : strictly_ascending []
| asc_one d : strictly_ascending [d]
| asc_cons d e l :
    datetime_lt d e -> strictly_ascending (e :: l) -> strictly_ascending (d :: e :: l).

(* ===================================================================== *)
(** ** RecurrenceRule *)

Record RecurrenceRule : Type := mk_RecurrenceRule {
  input_str : string;
  start_dt : datetime;
  num_preview : Z;
  daily_or_greater_only : bool;
  canonical : list string;
  rr : rule_model;
  input_form : string;
  preview_dts : list datetime
}.

(** A line that spells a start or an end marker in upper case: what the
    test of line 117 looks for. *)
Definition marker_line (s : string) : Prop :=
  Str.Occurs "DTSTART" s \/ Str.Occurs "DTEND" s.

(** [["DTSTART" not in s and "DTEND" not in s]] *)
Definition keeps_line (s : string) : bool :=
  negb (Str.contains "DTSTART" s) && negb (Str.contains "DTEND" s).

(** [l'] is [l] with exactly the lines satisfying [P] taken out, the
    others in their order. *)
Inductive stripped (P : string -> Prop) : list string -> list string -> Prop :=
| stripped_nil : stripped P [] []
| stripped_drop s l l' : P s -> stripped P l l' -> stripped P (s :: l) l'
| stripped_keep s l l' : ~ P s -> stripped P l l' -> stripped P (s :: l) (s :: l').

Definition granularity_message : string :=
  "rrules must only specify recurring dates, not recurring times".

(** The error the specification calls GranularityError. *)
Definition GranularityError : exn := ValueError granularity_message.

(** The error the specification calls ConsistencyError. *)
Definition ConsistencyError : exn :=
  AssertionError "negative timedelta shouldn't happen".

Definition index_out_of_range : exn := IndexError "list index out of range".

Section Pipeline.

Variable E : Collaborators.

(** [rrule_to_dict]: the dict literal, then the comprehension that
    drops every entry whose value is [None]. *)
Definition rrule_to_dict (rule : rrule) : pydict :=
  let d :=
    [ ("freq", PyStr (nth (freq_code (_freq rule)) FREQNAMES ""));
      ("interval", PyInt (_interval rule));
      ("count", int_or_None (_count rule));
      ("until", match _until rule with
                | Some u => PyStr (isoformat E u)
                | None => PyNone
                end);
      ("byweekday", by_or_None (_byweekday rule));
      ("bymonthday", by_or_None (_bymonthday rule));
      ("bymonth", by_or_None (_bymonth rule));
      ("byhour", by_or_None (_byhour rule));
      ("byminute", by_or_None (_byminute rule));
      ("bysecond", by_or_None (_bysecond rule));
      ("dtstart", match _dtstart rule with
                  | Some d0 => PyStr (isoformat E d0)
                  | None => PyNone
                  end);
      ("bysetpos", by_or_None (_bysetpos rule)) ] in
  filter (fun kv => is_not_None (snd kv)) d.

(** [[d.isoformat() for d in dates] if dates else []] *)
Definition iso_list (dates : list datetime) : pyval :=
  match dates with
  | [] => PyList []
  | _ :: _ => PyList (map (fun d => PyStr (isoformat E d)) dates)
  end.

(** [rruleset_to_serializable]. The value of ["exdates"] is written
    [( ... if ... else [], )] in the source: the comma before the
    closing parenthesis makes it a tuple of one element. *)
Definition rruleset_to_serializable (rrs : rruleset) : pydict :=
  [ ("rrules", PyList (map (fun r => PyDict (rrule_to_dict r)) (_rrule rrs)));
    ("rdates", iso_list (_rdate rrs));
    ("exdates", PyTuple [iso_list (_exdate rrs)]) ].

(** [rrule_to_dict(self.rr)] as [__post_init__] calls it for its debug
    line: the argument is whatever [rrulestr] returned, and reading
    [rule._freq] on a rule set raises [AttributeError]. *)
Definition debug_rrule_to_dict (m : rule_model) : result pydict :=
  match m with
  | Single r => Ok (rrule_to_dict r)
  | Composite _ =>
      Raise (AttributeError "'rruleset' object has no attribute '_freq'")
  end.

(** Lines 86-113 of [__post_init__]: the rule text, the start that is
    kept, and the recorded input form. *)
Definition select_rule_text (input : string) (start : datetime)
  : M (string * datetime * string) :=
  if Str.contains "FREQ=" (Str.upper input) then
    ret (input, start, "rrule")
  else
    (let phrase :=
       if RE_STARTING_search E input then input
       else "starting " ++ str_datetime E start ++ ", " ++ input in
     r <- invoke (NLParse start phrase) (nl_parse E start phrase) ;;
     if negb (is_recurring r) then
       raise (ValueError ("self.input_str=" ++ repr_str E input
                          ++ " could not be parsed as recurrence rule"))
     else
       let start' :=
         match dtstart r with
         | Some d => if negb (datetime_eqb start d) then d else start
         | None => start
         end in
       ret (get_RFC_rrule r, start', "natural_language"))%pipeline.

(** Lines 116-118. *)
Definition canonical_lines (rstr : string) : list string :=
  filter keeps_line (Str.splitlines rstr).

(** Lines 127-130. *)
Definition granularity_gate (only : bool) (m : rule_model) : M unit :=
  if only then
    (ok <- lift (is_daily_or_greater (Model m)) ;;
     if negb ok then raise GranularityError else ret tt)%pipeline
  else ret tt.

(** Line 133. *)
Definition preview (m : rule_model) (n : Z) : M (list datetime) :=
  lift (getitem_slice (iterate E m) n).

(** Lines 116-134, from the rule text on. *)
Definition build (input : string) (n : Z) (only : bool)
           (sel : string * datetime * string) : M RecurrenceRule :=
  (let '(rstr, start', form) := sel in
   let canon := canonical_lines rstr in
   let text := Str.join Str.NL canon in
   m <- invoke (RRuleStr text start') (rrulestr E text start') ;;
   lift (debug_rrule_to_dict m) ;;;
   granularity_gate only m ;;;
   pv <- preview m n ;;
   ret (mk_RecurrenceRule input start' n only canon m form pv))%pipeline.

(** The construction of a [RecurrenceRule]: the dataclass stores the
    four arguments and runs [__post_init__]; an exception leaves the
    caller without an object. *)
Definition __post_init__ (input : string) (start : datetime) (n : Z)
           (only : bool) : M RecurrenceRule :=
  (sel <- select_rule_text input start ;; build input n only sel)%pipeline.

End Pipeline.

(** [first_date] of [adjust_original_datetime]. *)
Definition first_date_of (first : datetime) : result date :=
  match dt_tzinfo first with
  | Some tz => rmap datetime_date (astimezone_utc first tz)
  | None => Ok (datetime_date first)
  end.

(** [adjust_original_datetime]: the object after the call and what the
    call returns or raises. *)
Definition adjust_original_datetime (self : RecurrenceRule)
           (start end_ : datetime) : RecurrenceRule * result (datetime * datetime) :=
  (self,
   match preview_dts self with
   | [] => Raise index_out_of_range
   | first :: _ =>
       rbind (first_date_of first) (fun first_date =>
       let start_date := datetime_date start in
       if negb (start_date =? first_date) then
         let delta := first_date - start_date in
         if delta <? 0 then Raise ConsistencyError
         else
           rbind (add_days start delta) (fun start' =>
           rbind (add_days end_ delta) (fun end' =>
           Ok (start', end')))
       else Ok (start, end_))
   end).

(** The rule [r] with its by-hour, by-minute and by-second attributes
    replaced. *)
Definition with_time_fields (r : rrule) (bh bm bs : byfield) : rrule :=
  mk_rrule (_freq r) (_interval r) (_count r) (_until r) (_byweekday r)
           (_bymonthday r) (_bymonth r) bh bm bs (_dtstart r) (_bysetpos r).

(** The rule set [s] with its explicit inclusion dates replaced. *)
Definition with_rdate (s : rruleset) (dates : list datetime) : rruleset :=
  mk_rruleset (_rrule s) dates (_exrule s) (_exdate s).

(* ===================================================================== *)
(** ** A sample of the collaborators

    The answers of the engines on the few inputs that the examples below
    run: a table, not an implementation of the engines. *)

Module Sample.

Definition naive (ord us : Z) : datetime := mk_datetime ord us None.

(** 2024-01-01, 2024-01-05, 2024-01-07, 2010-01-01, 2010-01-05 and
    2010-02-01, all at 00:00 and naive. *)
Definition d2024_01_01 : datetime := naive 738886 0.
Definition d2024_01_05 : datetime := naive 738890 0.
Definition d2024_01_07 : datetime := naive 738892 0.
Definition d2010_01_01 : datetime := naive 733773 0.
Definition d2010_01_05 : datetime := naive 733777 0.
Definition d2010_02_01 : datetime := naive 733804 0.

Definition HOUR_US : Z := 3600000000.

(** The attributes dateutil derives for a rule with no by-part: only the
    clock fields below the frequency are filled from the anchor. *)
Definition plain_rule (f : freq) (count : option Z) (until : option datetime)
           (anchor : datetime) : rrule :=
  let us := dt_micros anchor in
  let coarse := Nat.ltb (freq_code f) (freq_code HOURLY) in
  mk_rrule f 1 count until ByNone (ByTuple []) ByNone
           (if coarse then BySet [us / HOUR_US] else ByNone)
           (if Nat.ltb (freq_code f) (freq_code MINUTELY)
            then BySet [(us / 60000000) mod 60] else ByNone)
           (if Nat.ltb (freq_code f) (freq_code SECONDLY)
            then ByTuple [(us / 1000000) mod 60] else ByNone)
           (Some anchor) ByNone.

(** [FREQ=MINUTELY;INTERVAL=1440;BYHOUR=5]: dateutil builds the rule and
    raises when it is iterated from an anchor at 00:00. *)
Definition minutely_1440_at_5 (anchor : datetime) : rrule :=
  mk_rrule MINUTELY 1440 None None ByNone (ByTuple []) ByNone
           (ByTuple [5]) ByNone
           (ByTuple [(dt_micros anchor / 1000000) mod 60])
           (Some anchor) ByNone.

Definition empty_rule_error : exn :=
  ValueError "Invalid combination of interval and byhour resulting in empty rule.".

Definition rrulestr (text : string) (anchor : datetime) : result rule_model :=
  let t := Str.upper text in
  if String.eqb t "FREQ=DAILY;COUNT=3" then
    Ok (Single (plain_rule DAILY (Some 3) None anchor))
  else if String.eqb t "RRULE:FREQ=DAILY;INTERVAL=1;UNTIL=20100201" then
    Ok (Single (plain_rule DAILY None (Some d2010_02_01) anchor))
  else if String.eqb t ("DTSTART:20240107T000000" ++ Str.NL
                        ++ "FREQ=DAILY;COUNT=3") then
    (* a start line in the text replaces the anchor that was passed *)
    Ok (Single (plain_rule DAILY (Some 3) None d2024_01_07))
  else if String.eqb t "FREQ=MINUTELY;INTERVAL=1440;BYHOUR=5" then
    Ok (Single (minutely_1440_at_5 anchor))
  else if String.eqb t "FREQ=HOURLY;COUNT=2" then
    Ok (Single (plain_rule HOURLY (Some 2) None anchor))
  else if String.eqb t ("RRULE:FREQ=HOURLY;COUNT=2" ++ Str.NL
                        ++ "RDATE:20240105T000000") then
    Ok (Composite (mk_rruleset [plain_rule HOURLY (Some 2) None anchor]
                               [d2024_01_05] [] []))
  else Raise (ValueError "unknown parameter name").

Definition shift_us (d : datetime) (us : Z) : datetime :=
  let w := wall_us d + us in
  mk_datetime (w / DAY_US) (w mod DAY_US) (dt_tzinfo d).

(** The occurrences of the daily and hourly rules of the table above,
    which all carry a count or an until date. *)
Definition occurrences (m : rule_model) : list datetime :=
  match m with
  | Single r =>
      match _dtstart r with
      | Some d =>
          let step := match _freq r with
                      | DAILY => DAY_US
                      | HOURLY => HOUR_US
                      | _ => 0
                      end in
          let n := match _count r, _until r with
                   | Some c, _ => c
                   | None, Some u => dt_ordinal u - dt_ordinal d + 1
                   | None, None => 0
                   end in
          map (fun k => shift_us d (Z.of_nat k * step)) (seq 0 (Z.to_nat n))
      | None => []
      end
  | Composite _ => []
  end.

(** Iterating the rules of the table: the minutely rule raises before
    its first item, the others yield their occurrences and stop. *)
Definition iterate (m : rule_model) : iteration :=
  match m with
  | Single r =>
      if freq_eqb (_freq r) MINUTELY && (_interval r =? 1440)
      then Throw empty_rule_error
      else of_list (occurrences m)
  | Composite _ => of_list (occurrences m)
  end.

(** The engine's answer on the example of the docstring that closes the
    source file; any other phrase is answered as not recurring. *)
Definition nl_parse (now : datetime) (phrase : string) : result RecurringEvent :=
  if String.eqb phrase "every day starting next tuesday until feb" then
    Ok (mk_RecurringEvent true
          ("DTSTART:20100105" ++ Str.NL
           ++ "RRULE:FREQ=DAILY;INTERVAL=1;UNTIL=20100201")
          (Some d2010_01_05))
  else Ok (mk_RecurringEvent false "" None).

Definition RE_STARTING_search (s : string) : bool :=
  Str.contains "START" (Str.upper s) || Str.contains "BEGIN" (Str.upper s).

Definition render (sep : string) (d : datetime) : string :=
  if datetime_eqb d d2024_01_01 then "2024-01-01" ++ sep ++ "00:00:00"
  else if datetime_eqb d d2010_01_01 then "2010-01-01" ++ sep ++ "00:00:00"
  else if datetime_eqb d d2010_01_05 then "2010-01-05" ++ sep ++ "00:00:00"
  else "".

Definition engines : Collaborators :=
  mk_Collaborators RE_STARTING_search nl_parse rrulestr iterate
                   (render " ") (render "T")
                   (fun s => "'" ++ s ++ "'").

(** An object whose rule yields no occurrence, so that its preview is
    empty, and one whose preview starts on 2024-01-05. *)
Definition empty_preview : RecurrenceRule :=
  mk_RecurrenceRule "FREQ=DAILY;COUNT=0" d2024_01_01 5 true
                    ["FREQ=DAILY;COUNT=0"]
                    (Single (plain_rule DAILY (Some 0) None d2024_01_01))
                    "rrule" [].

Definition from_jan_5 : RecurrenceRule :=
  mk_RecurrenceRule "FREQ=DAILY;COUNT=3" d2024_01_05 5 true
                    ["FREQ=DAILY;COUNT=3"]
                    (Single (plain_rule DAILY (Some 3) None d2024_01_05))
                    "rrule"
                    [d2024_01_05; naive 738891 0; naive 738892 0].

(** A fixed zone five hours behind UTC, and an object whose first
    occurrence is 2024-01-05 23:00 in that zone (2024-01-06 04:00 UTC). *)
Definition utc_minus_5 : tzinfo := mk_tzinfo (fun _ _ => -5 * HOUR_US).

Definition from_jan_5_evening : RecurrenceRule :=
  let first := mk_datetime 738890 (23 * HOUR_US) (Some utc_minus_5) in
  mk_RecurrenceRule "FREQ=DAILY;COUNT=3" first 5 true
                    ["FREQ=DAILY;COUNT=3"]
                    (Single (plain_rule DAILY (Some 3) None first))
                    "rrule"
                    [first;
                     mk_datetime 738891 (23 * HOUR_US) (Some utc_minus_5);
                     mk_datetime 738892 (23 * HOUR_US) (Some utc_minus_5)].

(** A fixed zone two hours ahead of UTC, and an object whose first
    occurrence is 2024-01-05 01:00 in that zone (2024-01-04 23:00 UTC). *)
Definition utc_plus_2 : tzinfo := mk_tzinfo (fun _ _ => 2 * HOUR_US).

Definition from_jan_5_early : RecurrenceRule :=
  let first := mk_datetime 738890 HOUR_US (Some utc_plus_2) in
  mk_RecurrenceRule "FREQ=DAILY;COUNT=2" first 5 true
                    ["FREQ=DAILY;COUNT=2"]
                    (Single (plain_rule DAILY (Some 2) None first))
                    "rrule"
                    [first; mk_datetime 738891 HOUR_US (Some utc_plus_2)].

End Sample.


(* ===================================================================== *)
(** ** Vocabulary of the further properties *)

(** A line that names a start or an end marker in any case of the
    letters: [rrulestr] upper-cases the text before it reads the property
    names, so it honours such a line as the marker. *)
Definition start_or_end_marker (s : string) : Prop :=
  Str.OccursNoCase "DTSTART" s \/ Str.OccursNoCase "DTEND" s.

(** Some character of [s] is a line boundary of [str.splitlines]. *)
Fixpoint has_linebreak (s : string) : bool :=
  match s with
  | EmptyString => false
  | String c rest => Str.is_linebreak c || has_linebreak rest
  end.

(** [d.get(k)] on a dict literal: the value of the first entry under
    [k]. *)
Fixpoint dict_get (k : string) (d : pydict) : option pyval :=
  match d with
  | [] => None
  | (k', v) :: rest => if String.eqb k k' then Some v else dict_get k rest
  end.

(** The entry a by-field leaves in a mapping: the attribute itself, a
    tuple or a set of integers, when it is not empty, and no entry
    otherwise. *)
Definition by_entry (b : byfield) : option pyval :=
  match b with
  | ByTuple (x :: xs) => Some (PyTuple (map PyInt (x :: xs)))
  | BySet (x :: xs) => Some (PySet (map PyInt (x :: xs)))
  | _ => None
  end.

(** The phrase that line 100 or line 102 hands to the natural-language
    engine. *)
Definition nl_phrase (E : Collaborators) (input : string) (start : datetime)
  : string :=
  if RE_STARTING_search E input then input
  else "starting " ++ str_datetime E start ++ ", " ++ input.

(** The message of line 105. *)
Definition not_recurring (E : Collaborators) (input : string) : exn :=
  ValueError ("self.input_str=" ++ repr_str E input
              ++ " could not be parsed as recurrence rule").

Definition no_freq_attribute : exn :=
  AttributeError "'rruleset' object has no attribute '_freq'".

(* ===================================================================== *)
(** * Properties *)

(** ** Strings *)

Lemma prefix_app (a b : string) :
  prefix a b = true <-> exists post, b = a ++ post.
Proof.
  revert b; induction a as [|c a IH]; intros b.
  - split; [intros _; exists b; reflexivity | destruct b; reflexivity].
  - destruct b as [|c' b]; simpl.
    + split; [discriminate | intros [post H]; discriminate].
    + destruct (ascii_dec c c') as [Heq|Hne].
      * subst c'. rewrite IH. split; intros [post H]; exists post.
        -- now rewrite H.
        -- now injection H.
      * split; [discriminate | intros [post H]; injection H; intros; congruence].
Qed.

Lemma contains_unfold (sub s : string) :
  Str.contains sub s =
  if prefix sub s then true
  else match s with
       | EmptyString => false
       | String _ rest => Str.contains sub rest
       end.
Proof. destruct s; reflexivity. Qed.

Lemma contains_Occurs (sub s : string) :
  Str.contains sub s = true <-> Str.Occurs sub s.
Proof.
  split.
  - induction s as [|c s IH]; rewrite contains_unfold;
      destruct (prefix sub _) eqn:Hp.
    + intros _. apply prefix_app in Hp as [post ->]. now exists "", post.
    + discriminate.
    + intros _. apply prefix_app in Hp as [post ->]. now exists "", post.
    + intros H. destruct (IH H) as (pre & post & ->).
      now exists (String c pre), post.
  - intros (pre & post & ->). induction pre as [|c pre IH].
    + rewrite contains_unfold.
      replace (prefix sub ("" ++ sub ++ post)) with true; [reflexivity|].
      symmetry. apply prefix_app. now exists post.
    + rewrite contains_unfold.
      change (String c pre ++ sub ++ post) with (String c (pre ++ sub ++ post)).
      destruct (prefix sub (String c (pre ++ sub ++ post)));
        [reflexivity | exact IH].
Qed.

Lemma contains_false_Occurs (sub s : string) :
  Str.contains sub s = false <-> ~ Str.Occurs sub s.
Proof.
  rewrite <- contains_Occurs. destruct (Str.contains sub s); split; congruence.
Qed.

Lemma upper_app (a b : string) :
  Str.upper (a ++ b) = Str.upper a ++ Str.upper b.
Proof. induction a as [|c a IH]; simpl; [reflexivity | now rewrite IH]. Qed.

Lemma upper_split (s a b : string) :
  Str.upper s = a ++ b ->
  exists s1 s2, s = s1 ++ s2 /\ Str.upper s1 = a /\ Str.upper s2 = b.
Proof.
  revert s; induction a as [|c a IH]; intros s H.
  - exists "", s. auto.
  - destruct s as [|c' s]; [discriminate|]. simpl in H.
    injection H as Hc Hs. destruct (IH _ Hs) as (s1 & s2 & -> & <- & <-).
    exists (String c' s1), s2. simpl. now rewrite Hc.
Qed.

(** Looking for an upper-case token in [s.upper()] is looking for the
    token in [s] without regard to case. *)
Lemma contains_upper_OccursNoCase (token s : string) :
  Str.upper token = token ->
  (Str.contains token (Str.upper s) = true <-> Str.OccursNoCase token s).
Proof.
  intros Hup. rewrite contains_Occurs. split.
  - intros (pre & post & H).
    apply upper_split in H as (s1 & s2 & -> & _ & H).
    apply upper_split in H as (m & s3 & -> & Hm & _).
    exists s1, m, s3. split; [reflexivity | congruence].
  - intros (pre & mid & post & -> & Hm).
    exists (Str.upper pre), (Str.upper post).
    rewrite !upper_app. congruence.
Qed.

(** [filter] with the test of the source takes out exactly the marker
    lines. *)
Lemma keeps_line_spec (s : string) :
  keeps_line s = true <-> ~ marker_line s.
Proof.
  unfold keeps_line, marker_line.
  rewrite andb_true_iff, !negb_true_iff, !contains_false_Occurs. tauto.
Qed.

Lemma filter_stripped (l : list string) :
  stripped marker_line l (filter keeps_line l).
Proof.
  induction l as [|s l IH]; simpl; [constructor|].
  destruct (keeps_line s) eqn:Hk.
  - apply stripped_keep; [now apply keeps_line_spec | exact IH].
  - apply stripped_drop; [|exact IH].
    destruct (Str.contains "DTSTART" s) eqn:H1.
    + left. now apply contains_Occurs.
    + right. unfold keeps_line in Hk. rewrite H1 in Hk. simpl in Hk.
      apply negb_false_iff in Hk. now apply contains_Occurs.
Qed.

(* ===================================================================== *)
(** ** The granularity check *)

Lemma time_components_iff (r : rrule) :
  _rule_has_time_components r = true <-> sub_daily (_freq r).
Proof.
  unfold _rule_has_time_components, sub_daily.
  destruct (_freq r); simpl; split; intros H;
    solve [ reflexivity | discriminate | tauto
          | destruct H as [H|[H|H]]; discriminate H ].
Qed.

Lemma coarse_not_sub_daily (f : freq) : daily_or_coarser f -> ~ sub_daily f.
Proof.
  unfold daily_or_coarser, sub_daily.
  intros [ -> | [ -> | [ -> | -> ] ] ] [H|[H|H]]; discriminate H.
Qed.

Lemma scan_rrules_false (rs : list rrule) :
  scan_rrules rs = false <-> exists r, In r rs /\ sub_daily (_freq r).
Proof.
  induction rs as [|r rs IH]; simpl.
  - split; [discriminate | intros (r & H & _); destruct H].
  - destruct (_rule_has_time_components r) eqn:Hr.
    + split; [|reflexivity]. intros _. exists r. split; [now left|].
      now apply time_components_iff.
    + rewrite IH. split.
      * intros (r' & Hin & Hs). exists r'. auto.
      * intros (r' & [<-|Hin] & Hs); [|now exists r'].
        apply time_components_iff in Hs. congruence.
Qed.

(** C1. On every rule model, single or composite, [is_daily_or_greater]
    returns a boolean, and the boolean is false exactly when some
    constituent sub-rule declares an hourly, minutely or secondly
    frequency; replacing the explicit inclusion dates of a rule set never
    changes the answer. *)
Theorem is_daily_or_greater_false_iff
        (m : rule_model) (s : rruleset) (dates : list datetime) :
  (exists b, is_daily_or_greater (Model m) = Ok b) /\
  (is_daily_or_greater (Model m) = Ok false <->
   exists r, In r (sub_rules m) /\ sub_daily (_freq r)) /\
  is_daily_or_greater (Model (Composite (with_rdate s dates)))
  = is_daily_or_greater (Model (Composite s)).
Proof.
  split; [|split].
  - destruct m; simpl; eauto.
  - destruct m as [r|rs]; simpl.
    + split.
      * intros H. exists r. split; [now left|].
        apply time_components_iff.
        injection H as H. now apply negb_false_iff in H.
      * intros (r' & [<-|H] & Hs); [|destruct H].
        apply time_components_iff in Hs. now rewrite Hs.
    + rewrite <- scan_rrules_false. split; congruence.
  - reflexivity.
Qed.

(** C9. A rule whose declared frequency is daily or coarser passes the
    granularity check whatever its by-hour, by-minute and by-second
    attributes hold: the rule has no time component for the check, alone
    and as the single member of a rule set. *)
Theorem override_fields_ignored (r : rrule) (bh bm bs : byfield) :
  daily_or_coarser (_freq r) ->
  _rule_has_time_components (with_time_fields r bh bm bs) = false /\
  is_daily_or_greater (Model (Single (with_time_fields r bh bm bs))) = Ok true /\
  is_daily_or_greater
    (Model (Composite (mk_rruleset [with_time_fields r bh bm bs] [] [] [])))
  = Ok true.
Proof.
  intros Hf.
  assert (H : _rule_has_time_components (with_time_fields r bh bm bs) = false).
  { destruct (_rule_has_time_components _) eqn:Ht; [|reflexivity].
    apply time_components_iff in Ht.
    now apply coarse_not_sub_daily in Hf. }
  split; [exact H|]. simpl. now rewrite H.
Qed.

Lemma override_fields_ignored_witness :
  let r := Sample.plain_rule DAILY None None Sample.d2024_01_01 in
  let bh := ByTuple [9; 17] in
  let bm := ByTuple [30] in
  let bs := ByTuple [15] in
  daily_or_coarser (_freq r) /\
  is_daily_or_greater (Model (Single (with_time_fields r bh bm bs))) = Ok true.
Proof.
  intros r bh bm bs.
  assert (Hf : daily_or_coarser (_freq r)) by (right; right; right; reflexivity).
  split; [exact Hf|].
  exact (proj1 (proj2 (override_fields_ignored r bh bm bs Hf))).
Defined.

(* ===================================================================== *)
(** ** Reconciliation *)

Lemma add_days_date (dt : datetime) (days : Z) (dt' : datetime) :
  add_days dt days = Ok dt' -> datetime_date dt' = datetime_date dt + days.
Proof.
  unfold add_days. destruct (in_date_range _); [|discriminate].
  intros H. injection H as <-. reflexivity.
Qed.

(** C4. Reconciliation leaves the object as it was, and a pair it
    returns is a fixed point: reconciling the returned pair against the
    same object returns that pair again. *)
Theorem adjust_idempotent_pure
        (self : RecurrenceRule) (start end_ s' e' : datetime) :
  fst (adjust_original_datetime self start end_) = self /\
  (snd (adjust_original_datetime self start end_) = Ok (s', e') ->
   adjust_original_datetime self s' e' = (self, Ok (s', e'))).
Proof.
  split; [reflexivity|].
  unfold adjust_original_datetime; simpl.
  destruct (preview_dts self) as [|first rest]; [discriminate|].
  destruct (first_date_of first) as [fd|e|]; [simpl|discriminate|discriminate].
  intros H. f_equal.
  destruct (datetime_date start =? fd) eqn:Heq; simpl in H.
  - injection H as <- <-. now rewrite Heq.
  - destruct (fd - datetime_date start <? 0); [discriminate|].
    destruct (add_days start _) as [s1|?|] eqn:Hs;
      [simpl in H|discriminate|discriminate].
    destruct (add_days end_ _) as [e1|?|] eqn:He;
      [simpl in H|discriminate|discriminate].
    injection H as <- <-. apply add_days_date in Hs.
    replace (datetime_date s1 =? fd) with true; [reflexivity|].
    symmetry. apply Z.eqb_eq. lia.
Qed.

Lemma adjust_idempotent_pure_witness :
  let start := Sample.d2024_01_01 in
  let end_ := Sample.naive 738886 Sample.HOUR_US in
  let s' := Sample.d2024_01_05 in
  let e' := Sample.naive 738890 Sample.HOUR_US in
  snd (adjust_original_datetime Sample.from_jan_5 start end_) = Ok (s', e') /\
  adjust_original_datetime Sample.from_jan_5 s' e'
  = (Sample.from_jan_5, Ok (s', e')).
Proof.
  intros start end_ s' e'.
  assert (H : snd (adjust_original_datetime Sample.from_jan_5 start end_)
              = Ok (s', e')) by reflexivity.
  split; [exact H|].
  exact (proj2 (adjust_idempotent_pure Sample.from_jan_5 start end_ s' e') H).
Defined.

(** C5. When the date of the first preview occurrence, taken in UTC for
    an aware occurrence, lies before the date of [start], reconciliation
    raises the assertion error and returns no pair. *)
Theorem adjust_backward_raises
        (self : RecurrenceRule) (start end_ first : datetime)
        (rest : list datetime) (first_date : date) :
  preview_dts self = first :: rest ->
  first_date_of first = Ok first_date ->
  first_date < datetime_date start ->
  snd (adjust_original_datetime self start end_) = Raise ConsistencyError /\
  forall pair, snd (adjust_original_datetime self start end_) <> Ok pair.
Proof.
  intros Hp Hf Hlt.
  assert (H : snd (adjust_original_datetime self start end_)
              = Raise ConsistencyError).
  { unfold adjust_original_datetime; simpl. rewrite Hp, Hf. simpl.
    replace (datetime_date start =? first_date) with false
      by (symmetry; apply Z.eqb_neq; lia).
    simpl. replace (first_date - datetime_date start <? 0) with true
      by (symmetry; apply Z.ltb_lt; lia).
    reflexivity. }
  split; [exact H|]. intros pair. rewrite H. discriminate.
Qed.

Lemma adjust_backward_raises_witness :
  let self := Sample.from_jan_5_evening in
  let start := Sample.naive 738892 0 in
  let first := mk_datetime 738890 (23 * Sample.HOUR_US) (Some Sample.utc_minus_5) in
  preview_dts self = first :: tl (preview_dts self) /\
  first_date_of first = Ok 738891 /\
  738891 < datetime_date start /\
  snd (adjust_original_datetime self start start) = Raise ConsistencyError.
Proof.
  intros self start first.
  assert (Hp : preview_dts self = first :: tl (preview_dts self)) by reflexivity.
  assert (Hf : first_date_of first = Ok 738891) by reflexivity.
  assert (Hlt : 738891 < datetime_date start) by (simpl; lia).
  split; [exact Hp | split; [exact Hf | split; [exact Hlt|]]].
  exact (proj1 (adjust_backward_raises self start start first
                  (tl (preview_dts self)) 738891 Hp Hf Hlt)).
Defined.

(** C10. Reconciliation reads the first preview occurrence before
    anything else: on an object whose preview is empty it raises the
    index error, whatever pair it is given. *)
Theorem adjust_empty_preview_raises
        (self : RecurrenceRule) (start end_ : datetime) :
  preview_dts self = [] ->
  snd (adjust_original_datetime self start end_) = Raise index_out_of_range /\
  forall pair, snd (adjust_original_datetime self start end_) <> Ok pair.
Proof.
  intros Hp. unfold adjust_original_datetime; simpl. rewrite Hp.
  split; [reflexivity | discriminate].
Qed.

Lemma adjust_empty_preview_raises_witness :
  preview_dts Sample.empty_preview = [] /\
  snd (adjust_original_datetime Sample.empty_preview
         Sample.d2024_01_01 Sample.d2024_01_05)
  = Raise index_out_of_range.
Proof.
  assert (Hp : preview_dts Sample.empty_preview = []) by reflexivity.
  split; [exact Hp|].
  exact (proj1 (adjust_empty_preview_raises Sample.empty_preview
                  Sample.d2024_01_01 Sample.d2024_01_05 Hp)).
Defined.

(* ===================================================================== *)
(** ** Construction *)

Lemma bind_Ok_inv {A B : Type} (m : M A) (k : A -> M B)
      (log : list call) (b : B) :
  bind m k = (log, Ok b) ->
  exists l1 a l2, m = (l1, Ok a) /\ k a = (l2, Ok b) /\ log = (l1 ++ l2)%list.
Proof.
  destruct m as [l1 [a|e|]]; simpl; [|discriminate|discriminate].
  destruct (k a) as [l2 r] eqn:Hk. simpl.
  intros H. injection H as <- ->. exists l1, a, l2. auto.
Qed.

Lemma Ok_inj {A : Type} (a b : A) : Ok a = Ok b -> a = b.
Proof. intros H. now injection H. Qed.

(** An iteration that yields a list and stops behaves as the list. *)
Lemma first_items_of_list (l : list datetime) (k : nat) :
  first_items k (of_list l) = firstn k l.
Proof.
  revert l; induction k as [|k IH]; intros [|d l]; simpl; try reflexivity.
  now rewrite IH.
Qed.

Lemma occurrence_count_of_list (l : list datetime) :
  occurrence_count (of_list l) = Some (List.length l).
Proof. induction l as [|d l IH]; simpl; [reflexivity | now rewrite IH]. Qed.

Lemma first_items_idem (k : nat) (it : iteration) :
  first_items (List.length (first_items k it)) it = first_items k it.
Proof.
  revert it; induction k as [|k IH]; intros it; [reflexivity|].
  destruct it; simpl; try reflexivity; now rewrite IH.
Qed.

Lemma first_items_within (k : nat) (it : iteration) :
  within_count (List.length (first_items k it)) (occurrence_count it).
Proof.
  revert it; induction k as [|k IH]; intros it.
  - simpl. destruct (occurrence_count it); simpl; [lia | exact I].
  - destruct it; simpl; try lia; try exact I.
    specialize (IH it). destruct (occurrence_count it); simpl in *; [lia | exact I].
Qed.

Lemma islice_list_Ok (it : iteration) (stop : Z) (pv : list datetime) :
  islice_list stop it = Ok pv ->
  pv = first_items (Z.to_nat stop) it /\
  List.length pv = min_count (Z.to_nat stop) (occurrence_count it).
Proof.
  revert stop pv; induction it as [|d rest IH|e| |f]; intros stop pv; simpl.
  - intros H. apply Ok_inj in H. subst pv.
    destruct (Z.to_nat stop); simpl; auto.
  - destruct (stop <=? 0) eqn:Hs.
    + apply Z.leb_le in Hs. intros H. apply Ok_inj in H. subst pv.
      replace (Z.to_nat stop) with 0%nat by lia.
      simpl. destruct (occurrence_count rest); auto.
    + apply Z.leb_gt in Hs.
      destruct (islice_list (stop - 1) rest) as [l| |] eqn:Hl; simpl;
        try discriminate.
      intros H. apply Ok_inj in H. subst pv.
      destruct (IH _ _ Hl) as [-> Hlen].
      replace (Z.to_nat stop) with (S (Z.to_nat (stop - 1))) by lia.
      split; [reflexivity|]. simpl. rewrite Hlen.
      destruct (occurrence_count rest); reflexivity.
  - destruct (stop <=? 0) eqn:Hs; [|discriminate].
    apply Z.leb_le in Hs. intros H. apply Ok_inj in H. subst pv.
    replace (Z.to_nat stop) with 0%nat by lia. auto.
  - destruct (stop <=? 0) eqn:Hs; [|discriminate].
    apply Z.leb_le in Hs. intros H. apply Ok_inj in H. subst pv.
    replace (Z.to_nat stop) with 0%nat by lia. auto.
  - destruct (stop <=? LIST_MAX); [|discriminate].
    intros H. apply Ok_inj in H. subst pv. split; [reflexivity|].
    generalize (Z.to_nat stop). intros k. revert f.
    induction k as [|k IHk]; intros f; simpl; [reflexivity|].
    now rewrite IHk.
Qed.

Lemma firstn_ascending (l : list datetime) (k : nat) :
  strictly_ascending l -> strictly_ascending (firstn k l).
Proof.
  intros H; revert k; induction H as [|d|d e l Hlt H IH]; intros k.
  - rewrite firstn_nil. constructor.
  - destruct k as [|[|k]]; simpl; constructor.
  - destruct k as [|[|k]]; simpl; try constructor.
    + exact Hlt.
    + exact (IH (S k)).
Qed.

Lemma of_list_ascending (l : list datetime) :
  strictly_ascending l ->
  forall k, strictly_ascending (first_items k (of_list l)).
Proof.
  intros H k. rewrite first_items_of_list. now apply firstn_ascending.
Qed.

Section Construction.

Variable E : Collaborators.

(** Everything that a successful construction went through. *)
Lemma post_init_Ok_inv (input : string) (start : datetime) (n : Z)
      (only : bool) (log : list call) (obj : RecurrenceRule) :
  __post_init__ E input start n only = (log, Ok obj) ->
  exists log0 rstr start' form r pv,
    select_rule_text E input start = (log0, Ok (rstr, start', form)) /\
    rrulestr E (Str.join Str.NL (canonical_lines rstr)) start' = Ok (Single r) /\
    (only = true -> _rule_has_time_components r = false) /\
    getitem_slice (iterate E (Single r)) n = Ok pv /\
    obj = mk_RecurrenceRule input start' n only (canonical_lines rstr)
                            (Single r) form pv /\
    log = (log0 ++ [RRuleStr (Str.join Str.NL (canonical_lines rstr)) start'])%list.
Proof.
  intros H. unfold __post_init__ in H.
  apply bind_Ok_inv in H as (log0 & [[rstr start'] form] & l1 & Hsel & Hb & ->).
  unfold build in Hb.
  apply bind_Ok_inv in Hb as (la & m & l2 & Hm & Hb & ->).
  apply bind_Ok_inv in Hb as (lb & d & l3 & Hd & Hb & ->).
  apply bind_Ok_inv in Hb as (lc & u & l4 & Hg & Hb & ->).
  apply bind_Ok_inv in Hb as (ld & pv & l5 & Hpv & Hb & ->).
  unfold invoke in Hm. injection Hm as <- Hm.
  unfold lift in Hd. injection Hd as <- Hd.
  destruct m as [r|s]; [|discriminate Hd].
  unfold preview, lift in Hpv. injection Hpv as <- Hpv.
  unfold ret in Hb. injection Hb as <- <-.
  assert (Hgate : lc = [] /\ (only = true -> _rule_has_time_components r = false)).
  { unfold granularity_gate in Hg. destruct only.
    - simpl in Hg. destruct (_rule_has_time_components r); simpl in Hg.
      + discriminate Hg.
      + injection Hg as <-. auto.
    - injection Hg as <-. split; [reflexivity | discriminate]. }
  destruct Hgate as [-> Hgate].
  exists log0, rstr, start', form, r, pv. repeat split; auto.
Qed.

Lemma select_raw (input : string) (start : datetime) :
  Str.contains "FREQ=" (Str.upper input) = true ->
  select_rule_text E input start = ([], Ok (input, start, "rrule")).
Proof. intros H. unfold select_rule_text. now rewrite H. Qed.

Lemma select_natural (input : string) (start : datetime)
      (log0 : list call) (rstr : string) (start' : datetime) (form : string) :
  Str.contains "FREQ=" (Str.upper input) = false ->
  select_rule_text E input start = (log0, Ok (rstr, start', form)) ->
  form = "natural_language".
Proof.
  intros H. unfold select_rule_text. rewrite H. intros Hs.
  apply bind_Ok_inv in Hs as (l1 & r & l2 & _ & Hk & _).
  destruct (negb (is_recurring r)); [discriminate Hk|].
  unfold ret in Hk. now injection Hk as _ _ _ <-.
Qed.

(** [build] calls the expansion engine only. *)
Lemma build_log (input : string) (n : Z) (only : bool)
      (sel : string * datetime * string) (c : call) :
  In c (fst (build E input n only sel)) -> is_NLParse c = false.
Proof.
  destruct sel as [[rstr start'] form]. unfold build, invoke.
  destruct (rrulestr E _ start') as [m|e|]; simpl;
    [|intros [<-|[]]; reflexivity ..].
  destruct (debug_rrule_to_dict E m) as [d|e|]; simpl;
    [|intros [<-|[]]; reflexivity ..].
  unfold granularity_gate. destruct only.
  - destruct (is_daily_or_greater (Model m)) as [ok|e|]; simpl;
      [|intros [<-|[]]; reflexivity ..].
    destruct (negb ok); simpl; [intros [<-|[]]; reflexivity|].
    destruct (getitem_slice _ n); simpl; intros [<-|[]]; reflexivity.
  - simpl. destruct (getitem_slice _ n); simpl; intros [<-|[]]; reflexivity.
Qed.

End Construction.

Lemma sys_maxsize_succ :
  Z.to_nat sys_maxsize = S (Z.to_nat (sys_maxsize - 1)).
Proof.
  assert (H : 0 < sys_maxsize) by reflexivity.
  rewrite <- Z2Nat.inj_succ by lia. f_equal; lia.
Qed.

Lemma getitem_slice_zero (it : iteration) :
  getitem_slice it 0 = islice_list sys_maxsize it.
Proof. reflexivity. Qed.

Lemma getitem_slice_accepted (it : iteration) (pv : list datetime) (n : Z) :
  n <> 0 -> getitem_slice it n = Ok pv -> islice_list n it = Ok pv.
Proof.
  intros Hn. unfold getitem_slice.
  replace (n =? 0) with false by (symmetry; apply Z.eqb_neq; lia).
  destruct (_ || _); [discriminate|].
  destruct (n <? -1); [discriminate|]. auto.
Qed.

Lemma getitem_slice_positive (it : iteration) (pv : list datetime) (n : Z) :
  0 < n -> getitem_slice it n = Ok pv ->
  pv = first_items (Z.to_nat n) it /\
  List.length pv = min_count (Z.to_nat n) (occurrence_count it).
Proof.
  intros Hn H. apply getitem_slice_accepted in H; [|lia].
  now apply islice_list_Ok.
Qed.

Section ConstructionProperties.

Variable E : Collaborators.

(** For a positive [num_preview] the preview is the first [num_preview]
    occurrences: its length is the smaller of [num_preview] and the number
    of occurrences, and it is strictly ascending when the occurrences
    are. *)
Lemma preview_positive (input : string) (start : datetime) (n : Z)
      (only : bool) (log : list call) (obj : RecurrenceRule) :
  0 < n ->
  __post_init__ E input start n only = (log, Ok obj) ->
  preview_dts obj = first_items (Z.to_nat n) (iterate E (rr obj)) /\
  List.length (preview_dts obj)
  = min_count (Z.to_nat n) (occurrence_count (iterate E (rr obj))) /\
  ((forall k, strictly_ascending (first_items k (iterate E (rr obj)))) ->
   strictly_ascending (preview_dts obj)).
Proof.
  intros Hn H.
  apply post_init_Ok_inv in H
    as (log0 & rstr & start' & form & r & pv & _ & _ & _ & Hpv & -> & _).
  cbn [preview_dts rr].
  apply getitem_slice_positive in Hpv as [-> Hlen]; [|exact Hn].
  split; [reflexivity|]. split; [exact Hlen|]. intros Hasc. apply Hasc.
Qed.

(** C2, at [num_preview = 0]. The slice [rr[:0]] reaches dateutil with a
    falsy stop, which dateutil replaces by [sys.maxsize]: a construction
    that succeeds with [num_preview = 0] stores every occurrence of the
    rule (up to [sys.maxsize] of them), so the preview of a rule with an
    occurrence is longer than [min(0, available) = 0]. *)
Theorem preview_zero_keeps_every_occurrence
        (input : string) (start : datetime) (only : bool)
        (log : list call) (obj : RecurrenceRule) :
  __post_init__ E input start 0 only = (log, Ok obj) ->
  preview_dts obj
  = first_items (Z.to_nat sys_maxsize) (iterate E (rr obj)) /\
  (first_items 1 (iterate E (rr obj)) <> [] ->
   List.length (preview_dts obj)
   <> min_count 0 (occurrence_count (iterate E (rr obj)))).
Proof.
  intros H.
  apply post_init_Ok_inv in H
    as (log0 & rstr & start' & form & r & pv & _ & _ & _ & Hpv & -> & _).
  cbn [preview_dts rr]. rewrite getitem_slice_zero in Hpv.
  apply islice_list_Ok in Hpv as [-> _]. split; [reflexivity|].
  rewrite sys_maxsize_succ. generalize (Z.to_nat (sys_maxsize - 1)); intros k.
  assert (Hmin : forall c, min_count 0 c = 0%nat) by (intros [a|]; reflexivity).
  rewrite Hmin.
  destruct (iterate E (Single r)); simpl; try congruence; discriminate.
Qed.

(** What the filter of lines 116-118 does achieve: after a successful
    construction no line of [canonical] spells [DTSTART] or [DTEND] in
    upper case, and [canonical] is the sequence of lines of the rule text
    (the input itself on the raw branch, the text of the natural-language
    engine otherwise) with exactly the lines that do taken out. *)
Lemma canonical_has_no_marker_line
        (input : string) (start : datetime) (n : Z) (only : bool)
        (log : list call) (obj : RecurrenceRule) :
  __post_init__ E input start n only = (log, Ok obj) ->
  (forall line, In line (canonical obj) -> ~ marker_line line) /\
  exists log0 rstr start' form,
    select_rule_text E input start = (log0, Ok (rstr, start', form)) /\
    stripped marker_line (Str.splitlines rstr) (canonical obj).
Proof.
  intros H.
  apply post_init_Ok_inv in H
    as (log0 & rstr & start' & form & r & pv & Hsel & _ & _ & _ & -> & _).
  cbn [canonical]. split.
  - intros line Hin. apply filter_In in Hin as [_ Hk].
    now apply keeps_line_spec.
  - exists log0, rstr, start', form. split; [exact Hsel|].
    apply filter_stripped.
Qed.

(** C3, on a raw rule in lower case. The test of line 117 looks for the
    upper-case spelling only, while line 86 accepts a raw rule in any
    case and [rrulestr] upper-cases what it is given: a line of a raw
    input that names the start or the end marker in another case passes
    the test, so a construction that succeeds keeps that marker line in
    [canonical]. *)
Theorem lower_case_marker_line_is_kept
        (input : string) (start : datetime) (n : Z) (only : bool)
        (log : list call) (obj : RecurrenceRule) (line : string) :
  __post_init__ E input start n only = (log, Ok obj) ->
  Str.OccursNoCase "FREQ=" input ->
  In line (Str.splitlines input) ->
  start_or_end_marker line ->
  ~ marker_line line ->
  In line (canonical obj) /\
  exists kept, In kept (canonical obj) /\ start_or_end_marker kept.
Proof.
  intros H Hocc Hin Hmark Hnot.
  apply (contains_upper_OccursNoCase "FREQ=" input eq_refl) in Hocc.
  apply post_init_Ok_inv in H
    as (log0 & rstr & start' & form & r & pv & Hsel & _ & _ & _ & -> & _).
  rewrite (select_raw E _ _ Hocc) in Hsel.
  assert (Hr : rstr = input) by congruence. subst rstr.
  cbn [canonical].
  assert (Hkept : In line (canonical_lines input)).
  { apply filter_In. split; [exact Hin | now apply keeps_line_spec]. }
  split; [exact Hkept | exists line; split; assumption].
Qed.

(** C7. An input that mentions [FREQ=] in any case takes the raw branch:
    the natural-language engine is not called, whether or not the
    construction succeeds, and an object that results records the form
    ["rrule"]. An input that does not mention it records the form
    ["natural_language"]. *)
Theorem form_detection
        (input : string) (start : datetime) (n : Z) (only : bool)
        (log : list call) (res : result RecurrenceRule) :
  __post_init__ E input start n only = (log, res) ->
  (Str.OccursNoCase "FREQ=" input ->
   (forall now phrase, ~ In (NLParse now phrase) log) /\
   (forall obj, res = Ok obj -> input_form obj = "rrule")) /\
  (~ Str.OccursNoCase "FREQ=" input ->
   forall obj, res = Ok obj -> input_form obj = "natural_language").
Proof.
  intros H. split.
  - intros Hocc.
    apply (contains_upper_OccursNoCase "FREQ=" input eq_refl) in Hocc.
    split.
    + intros now phrase Hin.
      assert (Hlog : fst (__post_init__ E input start n only)
                     = fst (build E input n only (input, start, "rrule"))).
      { unfold __post_init__. rewrite (select_raw E _ _ Hocc). reflexivity. }
      rewrite H in Hlog.
      change (log = fst (build E input n only (input, start, "rrule"))) in Hlog.
      rewrite Hlog in Hin. apply build_log in Hin. discriminate Hin.
    + intros obj ->.
      apply post_init_Ok_inv in H
        as (log0 & rstr & start' & form & r & pv & Hsel & _ & _ & _ & -> & _).
      rewrite (select_raw E _ _ Hocc) in Hsel.
      injection Hsel as _ _ _ <-. reflexivity.
  - intros Hno obj ->.
    assert (Hc : Str.contains "FREQ=" (Str.upper input) = false).
    { destruct (Str.contains "FREQ=" (Str.upper input)) eqn:Hc; [|reflexivity].
      apply (contains_upper_OccursNoCase "FREQ=" input eq_refl) in Hc.
      contradiction. }
    apply post_init_Ok_inv in H
      as (log0 & rstr & start' & form & r & pv & Hsel & _ & _ & _ & -> & _).
    cbn [input_form]. exact (select_natural E _ _ _ _ _ _ Hc Hsel).
Qed.

(** A single rule with a sub-daily frequency is refused with the
    granularity error under the date-only policy; without the policy the
    construction goes on to the preview. *)
Lemma single_sub_daily_rule
      (input : string) (start : datetime) (n : Z)
      (log0 : list call) (rstr : string) (start' : datetime) (form : string)
      (r : rrule) :
  select_rule_text E input start = (log0, Ok (rstr, start', form)) ->
  rrulestr E (Str.join Str.NL (canonical_lines rstr)) start' = Ok (Single r) ->
  sub_daily (_freq r) ->
  snd (__post_init__ E input start n true) = Raise GranularityError /\
  snd (__post_init__ E input start n false)
  = rmap (mk_RecurrenceRule input start' n false (canonical_lines rstr)
                            (Single r) form)
         (getitem_slice (iterate E (Single r)) n).
Proof.
  intros Hsel Hrr Hsub. apply time_components_iff in Hsub.
  unfold __post_init__. rewrite Hsel. cbn [bind fst snd build].
  unfold invoke. rewrite Hrr. cbn [bind fst snd debug_rrule_to_dict lift].
  split.
  - unfold granularity_gate. cbn [is_daily_or_greater lift bind fst snd].
    rewrite Hsub. reflexivity.
  - unfold granularity_gate, preview, lift. cbn [bind fst snd ret].
    destruct (getitem_slice _ n); reflexivity.
Qed.

(** C6, on a rule set. When the expansion engine returns a rule set, the
    construction raises [AttributeError] on its debug line, before the
    granularity gate is reached, whatever the policy and whatever the
    frequencies of the sub-rules: a rule set with an hourly sub-rule is not
    refused with the granularity error. *)
Theorem rule_set_fails_before_gate
        (input : string) (start : datetime) (n : Z) (only : bool)
        (log0 : list call) (rstr : string) (start' : datetime) (form : string)
        (s : rruleset) :
  select_rule_text E input start = (log0, Ok (rstr, start', form)) ->
  rrulestr E (Str.join Str.NL (canonical_lines rstr)) start' = Ok (Composite s) ->
  snd (__post_init__ E input start n only)
  = Raise (AttributeError "'rruleset' object has no attribute '_freq'") /\
  snd (__post_init__ E input start n only) <> Raise GranularityError.
Proof.
  intros Hsel Hrr.
  assert (H : snd (__post_init__ E input start n only)
              = Raise (AttributeError "'rruleset' object has no attribute '_freq'")).
  { unfold __post_init__. rewrite Hsel. cbn [bind fst snd build].
    unfold invoke. rewrite Hrr. reflexivity. }
  split; [exact H|]. rewrite H. discriminate.
Qed.

End ConstructionProperties.

Lemma preview_zero_keeps_every_occurrence_witness :
  exists log obj,
    __post_init__ Sample.engines "FREQ=DAILY;COUNT=3" Sample.d2024_01_01 0 true
    = (log, Ok obj) /\
    occurrence_count (iterate Sample.engines (rr obj)) = Some 3%nat /\
    List.length (preview_dts obj)
    <> min_count 0 (occurrence_count (iterate Sample.engines (rr obj))).
Proof.
  eexists. eexists.
  assert (H : __post_init__ Sample.engines "FREQ=DAILY;COUNT=3"
                Sample.d2024_01_01 0 true = (_, Ok _)) by reflexivity.
  split; [exact H|]. split; [reflexivity|].
  apply (proj2 (preview_zero_keeps_every_occurrence
                  Sample.engines _ _ _ _ _ H)).
  discriminate.
Defined.

Lemma lower_case_marker_line_is_kept_witness :
  let input := "dtstart:20240107T000000" ++ Str.NL ++ "freq=daily;count=3" in
  let line := "dtstart:20240107T000000" in
  exists log obj,
    __post_init__ Sample.engines input Sample.d2024_01_01 5 true
    = (log, Ok obj) /\
    Str.OccursNoCase "FREQ=" input /\
    In line (Str.splitlines input) /\
    start_or_end_marker line /\
    ~ marker_line line /\
    In line (canonical obj) /\
    start_dt obj = Sample.d2024_01_01 /\
    first_items 1 (iterate Sample.engines (rr obj)) = [Sample.d2024_01_07].
Proof.
  intros input line. eexists. eexists.
  assert (H : __post_init__ Sample.engines input Sample.d2024_01_01 5 true
              = (_, Ok _)) by reflexivity.
  assert (Hocc : Str.OccursNoCase "FREQ=" input).
  { exists ("dtstart:20240107T000000" ++ Str.NL), "freq=", "daily;count=3".
    split; reflexivity. }
  assert (Hin : In line (Str.splitlines input)) by (left; reflexivity).
  assert (Hmark : start_or_end_marker line).
  { left. exists "", "dtstart", ":20240107T000000". split; reflexivity. }
  assert (Hnot : ~ marker_line line).
  { apply keeps_line_spec. reflexivity. }
  split; [exact H|]. split; [exact Hocc|]. split; [exact Hin|].
  split; [exact Hmark|]. split; [exact Hnot|].
  split; [|split; reflexivity].
  exact (proj1 (lower_case_marker_line_is_kept Sample.engines _ _ _ _ _ _ line
                  H Hocc Hin Hmark Hnot)).
Defined.

Lemma canonical_has_no_marker_line_witness :
  exists log obj,
    __post_init__ Sample.engines "every day starting next tuesday until feb"
                  Sample.d2010_01_01 5 true
    = (log, Ok obj) /\
    canonical obj = ["RRULE:FREQ=DAILY;INTERVAL=1;UNTIL=20100201"] /\
    forall line, In line (canonical obj) -> ~ marker_line line.
Proof.
  eexists. eexists.
  assert (H : __post_init__ Sample.engines
                "every day starting next tuesday until feb"
                Sample.d2010_01_01 5 true = (_, Ok _)) by reflexivity.
  split; [exact H|]. split; [reflexivity|].
  exact (proj1 (canonical_has_no_marker_line Sample.engines _ _ _ _ _ _ H)).
Defined.

Lemma form_detection_witness :
  let phrase := "every day starting next tuesday until feb" in
  exists log obj log' obj',
    __post_init__ Sample.engines "freq=daily;count=3" Sample.d2024_01_01 5 true
    = (log, Ok obj) /\
    Str.OccursNoCase "FREQ=" "freq=daily;count=3" /\
    (forall now text, ~ In (NLParse now text) log) /\
    input_form obj = "rrule" /\
    __post_init__ Sample.engines phrase Sample.d2010_01_01 5 true
    = (log', Ok obj') /\
    ~ Str.OccursNoCase "FREQ=" phrase /\
    input_form obj' = "natural_language".
Proof.
  intros phrase. eexists. eexists. eexists. eexists.
  assert (H : __post_init__ Sample.engines "freq=daily;count=3"
                Sample.d2024_01_01 5 true = (_, Ok _)) by reflexivity.
  assert (Hocc : Str.OccursNoCase "FREQ=" "freq=daily;count=3").
  { exists "", "freq=", "daily;count=3". split; reflexivity. }
  assert (H' : __post_init__ Sample.engines phrase
                 Sample.d2010_01_01 5 true = (_, Ok _)) by reflexivity.
  assert (Hno : ~ Str.OccursNoCase "FREQ=" phrase).
  { intros Hc.
    apply (contains_upper_OccursNoCase "FREQ=" phrase eq_refl) in Hc.
    discriminate Hc. }
  destruct (proj1 (form_detection Sample.engines _ _ _ _ _ _ H) Hocc)
    as [Hlog Hform].
  split; [exact H|]. split; [exact Hocc|]. split; [exact Hlog|].
  split; [exact (Hform _ eq_refl)|].
  split; [exact H'|]. split; [exact Hno|].
  exact (proj2 (form_detection Sample.engines _ _ _ _ _ _ H') Hno _ eq_refl).
Defined.

Lemma rule_set_fails_before_gate_witness :
  let input := "RRULE:FREQ=HOURLY;COUNT=2" ++ Str.NL ++ "RDATE:20240105T000000" in
  let start := Sample.d2024_01_01 in
  exists s,
    select_rule_text Sample.engines input start = ([], Ok (input, start, "rrule")) /\
    rrulestr Sample.engines (Str.join Str.NL (canonical_lines input)) start
    = Ok (Composite s) /\
    (exists r, In r (_rrule s) /\ _freq r = HOURLY) /\
    snd (__post_init__ Sample.engines input start 5 true)
    = Raise (AttributeError "'rruleset' object has no attribute '_freq'").
Proof.
  intros input start. eexists.
  assert (Hsel : select_rule_text Sample.engines input start
                 = ([], Ok (input, start, "rrule"))) by reflexivity.
  assert (Hrr : rrulestr Sample.engines
                  (Str.join Str.NL (canonical_lines input)) start
                = Ok (Composite _)) by reflexivity.
  split; [exact Hsel|]. split; [exact Hrr|]. split.
  - eexists. split; [left; reflexivity | reflexivity].
  - exact (proj1 (rule_set_fails_before_gate Sample.engines input start 5 true
                    _ _ _ _ _ Hsel Hrr)).
Defined.

(* ===================================================================== *)
(** ** Serialization *)

Lemma NoDup_keys_filter (f : string * pyval -> bool) (d : pydict) :
  NoDup (map fst d) -> NoDup (map fst (filter f d)).
Proof.
  induction d as [|kv d IH]; simpl; intros H; [constructor|].
  inversion H as [|k ks Hnot Hnd]; subst.
  destruct (f kv); simpl; [|now apply IH].
  constructor; [|now apply IH].
  intros Hin. apply Hnot. apply in_map_iff in Hin as (kv' & Hk & Hin).
  apply filter_In in Hin as [Hin _]. apply in_map_iff. now exists kv'.
Qed.

Lemma by_or_None_present (b : byfield) :
  is_not_None (by_or_None b) = true -> present (by_or_None b).
Proof.
  destruct b as [|[|x xs]|[|x xs]]; simpl; try discriminate;
    intros _; repeat split; discriminate.
Qed.

Lemma int_or_None_present (c : option Z) :
  is_not_None (int_or_None c) = true -> present (int_or_None c).
Proof.
  destruct c; simpl; try discriminate. intros _. repeat split; discriminate.
Qed.

Lemma PyStr_present (s : string) : present (PyStr s).
Proof. repeat split; discriminate. Qed.

Section Serialization.

Variable E : Collaborators.

(** The mapping of a single rule: its keys are among the twelve keys, no
    key occurs twice, and every value is present (neither [None] nor an
    empty list, tuple or set). *)
Lemma rrule_to_dict_compact (rule : rrule) :
  NoDup (map fst (rrule_to_dict E rule)) /\
  forall k v, In (k, v) (rrule_to_dict E rule) -> In k RULE_KEYS /\ present v.
Proof.
  split.
  - unfold rrule_to_dict. apply NoDup_keys_filter. simpl.
    repeat (constructor; [simpl; intuition discriminate|]). constructor.
  - intros k v Hin. unfold rrule_to_dict in Hin.
    apply filter_In in Hin as [Hin Hv]. simpl in Hin, Hv.
    repeat (destruct Hin as [Hin|Hin];
            [ injection Hin as <- <-; split; [simpl; tauto|] | ]);
      try solve [ apply PyStr_present
                | repeat split; discriminate
                | now apply by_or_None_present
                | now apply int_or_None_present
                | destruct (_until rule); [apply PyStr_present | discriminate Hv]
                | destruct (_dtstart rule); [apply PyStr_present | discriminate Hv] ].
    destruct Hin.
Qed.

Lemma iso_list_timestamps (dates : list datetime) :
  timestamp_list (iso_list E dates).
Proof.
  destruct dates as [|d ds].
  - exists []. reflexivity.
  - exists (map (isoformat E) (d :: ds)). unfold iso_list.
    now rewrite map_map.
Qed.

(** C8, on a rule set. The mapping of a rule set has the three keys
    [rrules], [rdates] and [exdates]; [rrules] is the list of the
    sub-rule mappings and [rdates] a list of timestamps, but the value of
    [exdates] is a tuple of one element that holds the list of
    timestamps, not that list. *)
Theorem exdates_is_a_tuple (rrs : rruleset) :
  exists rdates exdates,
    rruleset_to_serializable E rrs
    = [ ("rrules", PyList (map (fun r => PyDict (rrule_to_dict E r)) (_rrule rrs)));
        ("rdates", rdates);
        ("exdates", PyTuple [exdates]) ] /\
    timestamp_list rdates /\
    timestamp_list exdates /\
    ~ timestamp_list (PyTuple [exdates]).
Proof.
  exists (iso_list E (_rdate rrs)), (iso_list E (_exdate rrs)).
  split; [reflexivity|].
  split; [apply iso_list_timestamps|].
  split; [apply iso_list_timestamps|].
  intros [stamps H]. discriminate H.
Qed.

End Serialization.

(* ===================================================================== *)
(** * Further properties *)

(** ** Reconciliation, beyond the fixed point *)

Lemma add_days_fields (dt : datetime) (days : Z) (dt' : datetime) :
  add_days dt days = Ok dt' ->
  dt_ordinal dt' = dt_ordinal dt + days /\
  dt_micros dt' = dt_micros dt /\
  dt_tzinfo dt' = dt_tzinfo dt.
Proof.
  unfold add_days. destruct (in_date_range _); [|discriminate].
  intros H. apply Ok_inj in H. subst dt'. auto.
Qed.

Lemma add_days_zero (dt dt' : datetime) : add_days dt 0 = Ok dt' -> dt' = dt.
Proof.
  intros H. apply add_days_fields in H as (Ho & Hm & Ht).
  destruct dt, dt'; simpl in *. f_equal; [lia | assumption | assumption].
Qed.

Lemma add_days_raises (dt : datetime) (days : Z) (e : exn) :
  add_days dt days = Raise e -> e = date_out_of_range.
Proof.
  unfold add_days. destruct (in_date_range _); [discriminate|].
  intros H. now injection H.
Qed.

Lemma first_date_of_raises (first : datetime) (e : exn) :
  first_date_of first = Raise e -> e = date_out_of_range.
Proof.
  unfold first_date_of, astimezone_utc.
  destruct (dt_tzinfo first) as [tz|]; [|discriminate].
  destruct (in_date_range _); simpl; [discriminate|].
  intros H. now injection H.
Qed.

Lemma first_date_of_naive (first : datetime) :
  dt_tzinfo first = None -> first_date_of first = Ok (datetime_date first).
Proof. intros H. unfold first_date_of. now rewrite H. Qed.

(** What a successful reconciliation returns: both ends moved forward by
    the same whole number of days, the day count that brings the date of
    [start] onto the date of the first preview occurrence; the time of day
    and the zone of either end are kept, so the difference between the
    wall-clock readings of the two ends is kept (the elapsed time between
    two aware ends of different zones is not covered: a whole-day move can
    change it across a clock change); and a move by zero days returns the
    pair itself. *)
Theorem adjust_success_shape
        (self : RecurrenceRule) (start end_ s' e' : datetime) :
  snd (adjust_original_datetime self start end_) = Ok (s', e') ->
  exists first rest first_date,
    preview_dts self = first :: rest /\
    first_date_of first = Ok first_date /\
    let delta := first_date - datetime_date start in
    0 <= delta /\
    datetime_date s' = first_date /\
    dt_ordinal s' = dt_ordinal start + delta /\
    dt_ordinal e' = dt_ordinal end_ + delta /\
    dt_micros s' = dt_micros start /\ dt_tzinfo s' = dt_tzinfo start /\
    dt_micros e' = dt_micros end_ /\ dt_tzinfo e' = dt_tzinfo end_ /\
    wall_us e' - wall_us s' = wall_us end_ - wall_us start /\
    (delta = 0 -> s' = start /\ e' = end_).
Proof.
  unfold adjust_original_datetime; simpl.
  destruct (preview_dts self) as [|first rest]; [discriminate|].
  destruct (first_date_of first) as [fd|e|] eqn:Hfd;
    [simpl|discriminate|discriminate].
  intros H. exists first, rest, fd. split; [reflexivity|]. split; [exact Hfd|].
  unfold datetime_date in *.
  destruct (dt_ordinal start =? fd) eqn:Heq; simpl in H.
  - apply Z.eqb_eq in Heq. apply Ok_inj in H. injection H as <- <-.
    repeat split; auto; lia.
  - apply Z.eqb_neq in Heq.
    destruct (fd - dt_ordinal start <? 0) eqn:Hneg; [discriminate|].
    apply Z.ltb_ge in Hneg.
    destruct (add_days start _) as [s1|?|] eqn:Hs;
      [simpl in H|discriminate|discriminate].
    destruct (add_days end_ _) as [e1|?|] eqn:He;
      [simpl in H|discriminate|discriminate].
    apply Ok_inj in H. injection H as <- <-.
    apply add_days_fields in Hs as (Hso & Hsm & Hst).
    apply add_days_fields in He as (Heo & Hem & Het).
    unfold wall_us. rewrite Hso, Heo, Hsm, Hem.
    repeat split; auto; lia.
Qed.

Lemma adjust_success_shape_witness :
  let start := Sample.d2024_01_01 in
  let end_ := Sample.naive 738886 Sample.HOUR_US in
  let s' := Sample.d2024_01_05 in
  let e' := Sample.naive 738890 Sample.HOUR_US in
  snd (adjust_original_datetime Sample.from_jan_5 start end_) = Ok (s', e') /\
  exists first rest first_date,
    preview_dts Sample.from_jan_5 = first :: rest /\
    first_date_of first = Ok first_date /\
    wall_us e' - wall_us s' = wall_us end_ - wall_us start.
Proof.
  intros start end_ s' e'.
  assert (H : snd (adjust_original_datetime Sample.from_jan_5 start end_)
              = Ok (s', e')) by reflexivity.
  split; [exact H|].
  destruct (adjust_success_shape Sample.from_jan_5 start end_ s' e' H)
    as (first & rest & fd & Hp & Hf & Hrest).
  exists first, rest, fd. split; [exact Hp|]. split; [exact Hf|].
  exact (proj1 (proj2 (proj2 (proj2 (proj2 (proj2 (proj2 (proj2 (proj2 Hrest))))))))).
Defined.

(** The three ways reconciliation fails, and only these: the index error,
    only on an empty preview; the assertion error, only when the date of
    the first preview occurrence precedes the date of [start]; otherwise
    the overflow error of a datetime that leaves the representable
    years. *)
Theorem adjust_failure_modes
        (self : RecurrenceRule) (start end_ : datetime) (e : exn) :
  snd (adjust_original_datetime self start end_) = Raise e ->
  (e = index_out_of_range /\ preview_dts self = []) \/
  (e = ConsistencyError /\
   exists first rest first_date,
     preview_dts self = first :: rest /\
     first_date_of first = Ok first_date /\
     first_date < datetime_date start) \/
  (e = date_out_of_range /\ preview_dts self <> []).
Proof.
  unfold adjust_original_datetime; simpl.
  destruct (preview_dts self) as [|first rest].
  - intros H. left. split; [now injection H | reflexivity].
  - destruct (first_date_of first) as [fd|e0|] eqn:Hfd; simpl;
      [| |discriminate].
    + destruct (datetime_date start =? fd) eqn:Heq; simpl; [discriminate|].
      destruct (fd - datetime_date start <? 0) eqn:Hneg.
      * intros H. right; left. split; [now injection H|].
        exists first, rest, fd. apply Z.ltb_lt in Hneg.
        repeat split; auto; lia.
      * destruct (add_days start _) as [s1|e1|] eqn:Hs; simpl;
          [| |discriminate].
        -- destruct (add_days end_ _) as [e1|e2|] eqn:He; simpl;
             [discriminate| |discriminate].
           intros H. right; right. apply add_days_raises in He.
           split; [congruence | discriminate].
        -- intros H. right; right. apply add_days_raises in Hs.
           split; [congruence | discriminate].
    + intros H. right; right. apply first_date_of_raises in Hfd.
      split; [congruence | discriminate].
Qed.

Lemma adjust_failure_modes_witness :
  let self := Sample.from_jan_5 in
  let start := Sample.naive 738895 0 in
  snd (adjust_original_datetime self start start) = Raise ConsistencyError /\
  exists first rest first_date,
    preview_dts self = first :: rest /\
    first_date_of first = Ok first_date /\
    first_date < datetime_date start.
Proof.
  intros self start.
  assert (H : snd (adjust_original_datetime self start start)
              = Raise ConsistencyError) by reflexivity.
  split; [exact H|].
  destruct (adjust_failure_modes self start start ConsistencyError H)
    as [[Hi _] | [[_ Hc] | [Ho _]]];
    [discriminate Hi | exact Hc | discriminate Ho].
Defined.

(** Reconciling the first preview occurrence itself. The date of [start]
    is read on its own clock and the date of the occurrence on the UTC
    clock: a naive occurrence, or one whose UTC date is its local date,
    comes back unchanged; an occurrence whose UTC date is earlier than
    its local date raises the assertion error; one whose UTC date is
    later is moved onto that later date. *)
Theorem adjust_first_occurrence_itself
        (self : RecurrenceRule) (first end_ : datetime)
        (rest : list datetime) (first_date : date) :
  preview_dts self = first :: rest ->
  first_date_of first = Ok first_date ->
  (dt_tzinfo first = None -> first_date = datetime_date first) /\
  (first_date = datetime_date first ->
   snd (adjust_original_datetime self first end_) = Ok (first, end_)) /\
  (first_date < datetime_date first ->
   snd (adjust_original_datetime self first end_) = Raise ConsistencyError) /\
  (datetime_date first < first_date ->
   forall s' e',
     snd (adjust_original_datetime self first end_) = Ok (s', e') ->
     datetime_date s' = first_date /\ s' <> first).
Proof.
  intros Hp Hf. split; [|split; [|split]].
  - intros Hn. rewrite (first_date_of_naive first Hn) in Hf. now injection Hf.
  - intros Heq. unfold adjust_original_datetime; simpl. rewrite Hp, Hf. simpl.
    replace (datetime_date first =? first_date) with true
      by (symmetry; apply Z.eqb_eq; lia).
    reflexivity.
  - intros Hlt. unfold adjust_original_datetime; simpl. rewrite Hp, Hf. simpl.
    replace (datetime_date first =? first_date) with false
      by (symmetry; apply Z.eqb_neq; lia).
    simpl. replace (first_date - datetime_date first <? 0) with true
      by (symmetry; apply Z.ltb_lt; lia).
    reflexivity.
  - intros Hlt s' e'. unfold adjust_original_datetime; simpl.
    rewrite Hp, Hf. simpl.
    replace (datetime_date first =? first_date) with false
      by (symmetry; apply Z.eqb_neq; lia).
    simpl. destruct (first_date - datetime_date first <? 0); [discriminate|].
    destruct (add_days first _) as [s1|?|] eqn:Hs;
      [simpl|discriminate|discriminate].
    destruct (add_days end_ _) as [e1|?|]; [simpl|discriminate|discriminate].
    intros H. apply Ok_inj in H. injection H as <- _.
    apply add_days_date in Hs. split; [lia|].
    intros ->. lia.
Qed.

Lemma adjust_first_occurrence_itself_witness :
  let west := mk_datetime 738890 (23 * Sample.HOUR_US) (Some Sample.utc_minus_5) in
  let east := mk_datetime 738890 Sample.HOUR_US (Some Sample.utc_plus_2) in
  (preview_dts Sample.from_jan_5_evening
   = west :: tl (preview_dts Sample.from_jan_5_evening) /\
   first_date_of west = Ok 738891 /\
   snd (adjust_original_datetime Sample.from_jan_5_evening west west)
   = Ok (mk_datetime 738891 (23 * Sample.HOUR_US) (Some Sample.utc_minus_5),
         mk_datetime 738891 (23 * Sample.HOUR_US) (Some Sample.utc_minus_5))) /\
  (preview_dts Sample.from_jan_5_early
   = east :: tl (preview_dts Sample.from_jan_5_early) /\
   first_date_of east = Ok 738889 /\
   snd (adjust_original_datetime Sample.from_jan_5_early east east)
   = Raise ConsistencyError).
Proof.
  intros west east. split.
  - assert (Hp : preview_dts Sample.from_jan_5_evening
                 = west :: tl (preview_dts Sample.from_jan_5_evening))
      by reflexivity.
    assert (Hf : first_date_of west = Ok 738891) by reflexivity.
    split; [exact Hp|]. split; [exact Hf|]. reflexivity.
  - assert (Hp : preview_dts Sample.from_jan_5_early
                 = east :: tl (preview_dts Sample.from_jan_5_early))
      by reflexivity.
    assert (Hf : first_date_of east = Ok 738889) by reflexivity.
    split; [exact Hp|]. split; [exact Hf|].
    apply (proj1 (proj2 (proj2 (adjust_first_occurrence_itself
                   Sample.from_jan_5_early east east _ 738889 Hp Hf)))).
    simpl. lia.
Defined.

(* ===================================================================== *)
(** ** Construction, beyond the claims *)

Lemma getitem_slice_bounds (it : iteration) (pv : list datetime) (n : Z) :
  getitem_slice it n = Ok pv -> 0 <= n <= sys_maxsize.
Proof.
  assert (Hmax : 0 < sys_maxsize) by reflexivity.
  unfold getitem_slice. destruct (n =? 0) eqn:Hz.
  - apply Z.eqb_eq in Hz. intros _. lia.
  - apply Z.eqb_neq in Hz.
    destruct ((n =? -1) || (sys_maxsize <? n) || (n <? - sys_maxsize - 1))
      eqn:Hb; [discriminate|].
    destruct (n <? -1) eqn:Hlow; [discriminate|].
    apply orb_false_iff in Hb as [Hb _]. apply orb_false_iff in Hb as [H1 H2].
    apply Z.eqb_neq in H1. apply Z.ltb_ge in H2. apply Z.ltb_ge in Hlow.
    intros _. lia.
Qed.

Lemma getitem_slice_stop_refused (it : iteration) (n : Z) :
  n = -1 \/ sys_maxsize < n \/ n < - sys_maxsize - 1 ->
  getitem_slice it n = Raise islice_stop_error.
Proof.
  assert (Hmax : 0 < sys_maxsize) by reflexivity.
  intros Hn. unfold getitem_slice.
  replace (n =? 0) with false by (symmetry; apply Z.eqb_neq; lia).
  replace ((n =? -1) || (sys_maxsize <? n) || (n <? - sys_maxsize - 1))
    with true; [reflexivity|].
  symmetry. rewrite !orb_true_iff.
  destruct Hn as [Hn|[Hn|Hn]];
    [left; left; apply Z.eqb_eq | left; right; apply Z.ltb_lt
     | right; apply Z.ltb_lt]; lia.
Qed.

Lemma getitem_slice_indices_refused (it : iteration) (n : Z) :
  - sys_maxsize - 1 <= n < -1 ->
  getitem_slice it n = Raise islice_indices_error.
Proof.
  assert (Hmax : 0 < sys_maxsize) by reflexivity.
  intros Hn. unfold getitem_slice.
  replace (n =? 0) with false by (symmetry; apply Z.eqb_neq; lia).
  replace ((n =? -1) || (sys_maxsize <? n) || (n <? - sys_maxsize - 1))
    with false.
  - replace (n <? -1) with true by (symmetry; apply Z.ltb_lt; lia).
    reflexivity.
  - symmetry. rewrite !orb_false_iff. repeat split;
      [apply Z.eqb_neq | apply Z.ltb_ge | apply Z.ltb_ge]; lia.
Qed.

Lemma getitem_slice_prefix (it : iteration) (pv : list datetime) (n : Z) :
  getitem_slice it n = Ok pv -> exists k, pv = first_items k it.
Proof.
  unfold getitem_slice. destruct (_ || _); [discriminate|].
  destruct (_ <? -1); [discriminate|].
  intros H. apply islice_list_Ok in H as [-> _]. eauto.
Qed.

(** The items of [l], and then whatever [tail] does. *)
Lemma islice_list_then (l : list datetime) (tail : iteration) (stop : Z) :
  Z.of_nat (List.length l) < stop ->
  islice_list stop (then_ l tail)
  = rmap (app l) (islice_list (stop - Z.of_nat (List.length l)) tail).
Proof.
  revert stop; induction l as [|d l IH]; intros stop Hlen.
  - cbn [then_ List.length]. replace (stop - Z.of_nat 0) with stop by lia.
    destruct (islice_list stop tail); reflexivity.
  - cbn [then_ List.length islice_list] in *.
    replace (stop <=? 0) with false by (symmetry; apply Z.leb_gt; lia).
    rewrite IH by lia.
    replace (stop - 1 - Z.of_nat (List.length l))
      with (stop - Z.of_nat (S (List.length l))) by lia.
    destruct (islice_list _ tail); reflexivity.
Qed.

Lemma datetime_eqb_refl (d : datetime) : datetime_eqb d d = true.
Proof.
  unfold datetime_eqb. destruct (dt_tzinfo d).
  - apply Z.eqb_refl.
  - now rewrite !Z.eqb_refl.
Qed.

Lemma splitlines_no_linebreak_upto (k : nat) (s : string) :
  (String.length s <= k)%nat ->
  forall line, In line (Str.splitlines s) -> has_linebreak line = false.
Proof.
  revert s; induction k as [|k IH]; intros s Hlen line Hin.
  - destruct s; [destruct Hin | simpl in Hlen; lia].
  - destruct s as [|c s]; [destruct Hin|]. simpl in Hlen, Hin.
    destruct (Str.is_linebreak c) eqn:Hc.
    + destruct s as [|c' s'].
      * destruct Hin as [<-|[]]. reflexivity.
      * destruct (Ascii.eqb c Str.CR && Ascii.eqb c' Str.LF)%bool.
        -- destruct Hin as [<-|Hin]; [reflexivity|].
           apply (IH s'); [simpl in Hlen; lia | exact Hin].
        -- destruct Hin as [<-|Hin]; [reflexivity|].
           apply (IH (String c' s')); [lia | exact Hin].
    + destruct (Str.splitlines s) as [|l ls] eqn:Hs.
      * destruct Hin as [<-|[]]. simpl. now rewrite Hc.
      * destruct Hin as [<-|Hin].
        -- simpl. rewrite Hc. simpl.
           apply (IH s); [lia | rewrite Hs; now left].
        -- apply (IH s); [lia | rewrite Hs; now right].
Qed.

Lemma splitlines_no_linebreak (s line : string) :
  In line (Str.splitlines s) -> has_linebreak line = false.
Proof. apply (splitlines_no_linebreak_upto (String.length s)). lia. Qed.

Section ConstructionFurther.

Variable E : Collaborators.

Lemma build_log_exact (input : string) (n : Z) (only : bool)
      (rstr : string) (start' : datetime) (form : string) :
  fst (build E input n only (rstr, start', form))
  = [RRuleStr (Str.join Str.NL (canonical_lines rstr)) start'].
Proof.
  unfold build, invoke.
  destruct (rrulestr E _ start') as [m|e|]; simpl; [|reflexivity ..].
  destruct (debug_rrule_to_dict E m) as [d|e|]; simpl; [|reflexivity ..].
  unfold granularity_gate. destruct only.
  - destruct (is_daily_or_greater (Model m)) as [ok|e|]; simpl;
      [|reflexivity ..].
    destruct (negb ok); simpl; [reflexivity|].
    destruct (getitem_slice _ n); reflexivity.
  - simpl. destruct (getitem_slice _ n); reflexivity.
Qed.

(** What the natural-language branch went through when it produced a
    rule text. *)
Lemma select_natural_inv (input : string) (start : datetime)
      (log0 : list call) (rstr : string) (start' : datetime) (form : string) :
  Str.contains "FREQ=" (Str.upper input) = false ->
  select_rule_text E input start = (log0, Ok (rstr, start', form)) ->
  exists r,
    nl_parse E start (nl_phrase E input start) = Ok r /\
    is_recurring r = true /\
    rstr = get_RFC_rrule r /\
    start' = match dtstart r with
             | Some d => if negb (datetime_eqb start d) then d else start
             | None => start
             end /\
    form = "natural_language" /\
    log0 = [NLParse start (nl_phrase E input start)].
Proof.
  intros Hc. unfold select_rule_text. rewrite Hc.
  fold (nl_phrase E input start). unfold invoke.
  destruct (nl_parse E start (nl_phrase E input start)) as [r|e|] eqn:Hnl;
    [|discriminate ..].
  cbn [bind fst snd]. destruct (is_recurring r) eqn:Hr; simpl; [|discriminate].
  intros H. injection H as <- <- <- <-. exists r. repeat split; auto.
Qed.

Lemma select_natural_log (input : string) (start : datetime) :
  Str.contains "FREQ=" (Str.upper input) = false ->
  fst (select_rule_text E input start)
  = [NLParse start (nl_phrase E input start)].
Proof.
  intros Hc. unfold select_rule_text. rewrite Hc.
  fold (nl_phrase E input start). unfold invoke.
  destruct (nl_parse E start (nl_phrase E input start)) as [r|e|];
    cbn [bind fst snd]; try reflexivity.
  destruct (is_recurring r); reflexivity.
Qed.

(** The engines are called at most once each and in a fixed order: a raw
    rule reaches the expansion engine once, with its own filtered lines
    and the caller's start; a phrase reaches the natural-language engine
    once, with the caller's start as the reference, and the expansion
    engine at most once after it. *)
Theorem engine_calls
        (input : string) (start : datetime) (n : Z) (only : bool)
        (log : list call) (res : result RecurrenceRule) :
  __post_init__ E input start n only = (log, res) ->
  (Str.contains "FREQ=" (Str.upper input) = true ->
   log = [RRuleStr (Str.join Str.NL (canonical_lines input)) start]) /\
  (Str.contains "FREQ=" (Str.upper input) = false ->
   log = [NLParse start (nl_phrase E input start)] \/
   exists text anchor,
     log = [NLParse start (nl_phrase E input start); RRuleStr text anchor]).
Proof.
  intros H. apply (f_equal fst) in H. change (fst (log, res)) with log in H.
  subst log. split; intros Hc.
  - unfold __post_init__. rewrite (select_raw E _ _ Hc).
    cbn [bind ret]. rewrite build_log_exact. reflexivity.
  - unfold __post_init__. pose proof (select_natural_log input start Hc) as Hl.
    destruct (select_rule_text E input start)
      as [log0 [[[rstr start'] form]|e0|]]; cbn [fst] in Hl; subst log0;
      cbn [bind fst]; [|left; reflexivity ..].
    right. rewrite build_log_exact. simpl. eauto.
Qed.

(** A phrase that the natural-language engine rejects, by raising or by
    judging it not recurring, ends the construction before the expansion
    engine is called: the engine's exception comes through as it is, and
    a phrase that is not recurring raises the [ValueError] of line 105. *)
Theorem natural_language_failures
        (input : string) (start : datetime) (n : Z) (only : bool) :
  Str.contains "FREQ=" (Str.upper input) = false ->
  (forall e,
     nl_parse E start (nl_phrase E input start) = Raise e ->
     __post_init__ E input start n only
     = ([NLParse start (nl_phrase E input start)], Raise e)) /\
  (forall r,
     nl_parse E start (nl_phrase E input start) = Ok r ->
     is_recurring r = false ->
     __post_init__ E input start n only
     = ([NLParse start (nl_phrase E input start)],
        Raise (not_recurring E input))).
Proof.
  intros Hc. split.
  - intros e He. unfold __post_init__, select_rule_text. rewrite Hc.
    fold (nl_phrase E input start). rewrite He. reflexivity.
  - intros r Hr Hrec. unfold __post_init__, select_rule_text. rewrite Hc.
    fold (nl_phrase E input start). rewrite Hr. unfold invoke.
    cbn [bind fst snd]. rewrite Hrec. reflexivity.
Qed.

End ConstructionFurther.

Section ConstructionInvariants.

Variable E : Collaborators.

(** What holds of every object that the construction returns: the three
    plain arguments are stored as given; [num_preview] lies between 0 and
    [sys.maxsize]; the recorded form is one of the two literals; the rule
    model is a single rule, and it is what the expansion engine makes of
    the stored canonical lines anchored at the stored start; under the
    date-only policy it passes the granularity check; and the stored
    preview is what slicing the rule model by the stored count gives. *)
Theorem constructed_object_invariants
        (input : string) (start : datetime) (n : Z) (only : bool)
        (log : list call) (obj : RecurrenceRule) :
  __post_init__ E input start n only = (log, Ok obj) ->
  input_str obj = input /\
  num_preview obj = n /\
  daily_or_greater_only obj = only /\
  0 <= num_preview obj <= sys_maxsize /\
  (input_form obj = "rrule" \/ input_form obj = "natural_language") /\
  (exists r, rr obj = Single r) /\
  rrulestr E (Str.join Str.NL (canonical obj)) (start_dt obj) = Ok (rr obj) /\
  (daily_or_greater_only obj = true ->
   is_daily_or_greater (Model (rr obj)) = Ok true) /\
  getitem_slice (iterate E (rr obj)) (num_preview obj) = Ok (preview_dts obj).
Proof.
  intros H.
  apply post_init_Ok_inv in H
    as (log0 & rstr & start' & form & r & pv & Hsel & Hrr & Hg & Hpv & -> & _).
  cbn [input_str num_preview daily_or_greater_only input_form rr canonical
       start_dt preview_dts].
  repeat split; try reflexivity; try assumption.
  - exact (proj1 (getitem_slice_bounds _ _ _ Hpv)).
  - exact (proj2 (getitem_slice_bounds _ _ _ Hpv)).
  - destruct (Str.contains "FREQ=" (Str.upper input)) eqn:Hc.
    + rewrite (select_raw E _ _ Hc) in Hsel. left. now injection Hsel.
    + right. exact (select_natural E _ _ _ _ _ _ Hc Hsel).
  - eauto.
  - intros Ho. cbn [is_daily_or_greater]. now rewrite (Hg Ho).
Qed.

(** The stored preview is always a leading run of the occurrences of the
    stored rule model, whatever [num_preview] is: it is exactly the first
    items of the iteration, as many as it has; nothing is added, dropped
    from the middle or reordered; it is never longer than the occurrences
    are many; and it is strictly ascending whenever the occurrences
    are. *)
Theorem preview_is_prefix
        (input : string) (start : datetime) (n : Z) (only : bool)
        (log : list call) (obj : RecurrenceRule) :
  __post_init__ E input start n only = (log, Ok obj) ->
  preview_dts obj
  = first_items (List.length (preview_dts obj)) (iterate E (rr obj)) /\
  within_count (List.length (preview_dts obj))
               (occurrence_count (iterate E (rr obj))) /\
  ((forall k, strictly_ascending (first_items k (iterate E (rr obj)))) ->
   strictly_ascending (preview_dts obj)).
Proof.
  intros H.
  apply post_init_Ok_inv in H
    as (log0 & rstr & start' & form & r & pv & _ & _ & _ & Hpv & -> & _).
  cbn [rr preview_dts]. apply getitem_slice_prefix in Hpv as [k ->].
  split; [|split].
  - symmetry. apply first_items_idem.
  - apply first_items_within.
  - intros Hasc. apply Hasc.
Qed.

(** A [num_preview] that [islice] does not accept ends the construction
    with a [ValueError], once everything before line 133 has gone
    through: -1 and a number that does not fit a machine word raise the
    "Stop argument" message, any other number below -1 the "Indices"
    message. *)
Theorem num_preview_out_of_range
        (input : string) (start : datetime) (n : Z) (only : bool)
        (log0 : list call) (rstr : string) (start' : datetime) (form : string)
        (r : rrule) :
  select_rule_text E input start = (log0, Ok (rstr, start', form)) ->
  rrulestr E (Str.join Str.NL (canonical_lines rstr)) start' = Ok (Single r) ->
  (only = true -> _rule_has_time_components r = false) ->
  (n = -1 \/ sys_maxsize < n \/ n < - sys_maxsize - 1 ->
   snd (__post_init__ E input start n only) = Raise islice_stop_error) /\
  (- sys_maxsize - 1 <= n < -1 ->
   snd (__post_init__ E input start n only) = Raise islice_indices_error).
Proof.
  intros Hsel Hrr Hg.
  assert (Hrun : snd (__post_init__ E input start n only)
                 = rmap (mk_RecurrenceRule input start' n only
                           (canonical_lines rstr) (Single r) form)
                        (getitem_slice (iterate E (Single r)) n)).
  { unfold __post_init__. rewrite Hsel. cbn [bind fst snd build].
    unfold invoke. rewrite Hrr. cbn [bind fst snd debug_rrule_to_dict lift].
    unfold granularity_gate, preview, lift. destruct only.
    - cbn [is_daily_or_greater bind fst snd]. rewrite (Hg eq_refl).
      cbn [negb ret bind fst snd]. destruct (getitem_slice _ n); reflexivity.
    - cbn [ret bind fst snd]. destruct (getitem_slice _ n); reflexivity. }
  split; intros Hn; rewrite Hrun.
  - now rewrite (getitem_slice_stop_refused _ n Hn).
  - now rewrite (getitem_slice_indices_refused _ n Hn).
Qed.

(** An exception that the iteration of the rule raises before
    [num_preview] items have come ends the construction with that
    exception, and an iteration that hangs before then keeps the
    construction from returning. *)
Theorem iteration_failure_comes_through
        (input : string) (start : datetime) (n : Z) (only : bool)
        (log0 : list call) (rstr : string) (start' : datetime) (form : string)
        (r : rrule) (yielded : list datetime) :
  select_rule_text E input start = (log0, Ok (rstr, start', form)) ->
  rrulestr E (Str.join Str.NL (canonical_lines rstr)) start' = Ok (Single r) ->
  (only = true -> _rule_has_time_components r = false) ->
  Z.of_nat (List.length yielded) < n <= sys_maxsize ->
  (forall e,
     iterate E (Single r) = then_ yielded (Throw e) ->
     snd (__post_init__ E input start n only) = Raise e) /\
  (iterate E (Single r) = then_ yielded Hang ->
   snd (__post_init__ E input start n only) = Diverges).
Proof.
  intros Hsel Hrr Hg Hn.
  assert (Hrun : snd (__post_init__ E input start n only)
                 = rmap (mk_RecurrenceRule input start' n only
                           (canonical_lines rstr) (Single r) form)
                        (getitem_slice (iterate E (Single r)) n)).
  { unfold __post_init__. rewrite Hsel. cbn [bind fst snd build].
    unfold invoke. rewrite Hrr. cbn [bind fst snd debug_rrule_to_dict lift].
    unfold granularity_gate, preview, lift. destruct only.
    - cbn [is_daily_or_greater bind fst snd]. rewrite (Hg eq_refl).
      cbn [negb ret bind fst snd]. destruct (getitem_slice _ n); reflexivity.
    - cbn [ret bind fst snd]. destruct (getitem_slice _ n); reflexivity. }
  assert (Hslice : forall it, getitem_slice it n = islice_list n it).
  { intros it. unfold getitem_slice.
    replace (n =? 0) with false by (symmetry; apply Z.eqb_neq; lia).
    replace ((n =? -1) || (sys_maxsize <? n) || (n <? - sys_maxsize - 1))
      with false.
    - replace (n <? -1) with false by (symmetry; apply Z.ltb_ge; lia).
      reflexivity.
    - symmetry. rewrite !orb_false_iff. repeat split;
        [apply Z.eqb_neq | apply Z.ltb_ge | apply Z.ltb_ge]; lia. }
  split.
  - intros e Hit. rewrite Hrun, Hslice, Hit, islice_list_then by lia.
    cbn [islice_list].
    replace (n - Z.of_nat (List.length yielded) <=? 0) with false
      by (symmetry; apply Z.leb_gt; lia).
    reflexivity.
  - intros Hit. rewrite Hrun, Hslice, Hit, islice_list_then by lia.
    cbn [islice_list].
    replace (n - Z.of_nat (List.length yielded) <=? 0) with false
      by (symmetry; apply Z.leb_gt; lia).
    reflexivity.
Qed.

(** The start that the object keeps. A raw rule keeps the caller's start.
    A phrase keeps a start that compares equal to the baseline that the
    natural-language engine derived, when it derived one, and the
    caller's start otherwise; its canonical lines are the filtered lines
    of the engine's rule text. *)
Theorem start_dt_after_construction
        (input : string) (start : datetime) (n : Z) (only : bool)
        (log : list call) (obj : RecurrenceRule) :
  __post_init__ E input start n only = (log, Ok obj) ->
  (Str.contains "FREQ=" (Str.upper input) = true ->
   start_dt obj = start /\ canonical obj = canonical_lines input) /\
  (Str.contains "FREQ=" (Str.upper input) = false ->
   exists r,
     nl_parse E start (nl_phrase E input start) = Ok r /\
     is_recurring r = true /\
     canonical obj = canonical_lines (get_RFC_rrule r) /\
     match dtstart r with
     | Some d => datetime_eqb (start_dt obj) d = true
     | None => start_dt obj = start
     end).
Proof.
  intros H.
  apply post_init_Ok_inv in H
    as (log0 & rstr & start' & form & r & pv & Hsel & _ & _ & _ & -> & _).
  cbn [start_dt canonical]. split; intros Hc.
  - rewrite (select_raw E _ _ Hc) in Hsel. injection Hsel as _ <- <- _. auto.
  - apply (select_natural_inv E _ _ _ _ _ _ Hc) in Hsel
      as (ev & Hnl & Hrec & -> & -> & _ & _).
    exists ev. repeat split; auto.
    destruct (dtstart ev) as [d|]; [|reflexivity].
    destruct (datetime_eqb start d) eqn:Heq; simpl.
    + exact Heq.
    + apply datetime_eqb_refl.
Qed.

(** No canonical line holds a line-boundary character: each one is a
    single line for whoever receives the list. *)
Theorem canonical_lines_are_single_lines
        (input : string) (start : datetime) (n : Z) (only : bool)
        (log : list call) (obj : RecurrenceRule) :
  __post_init__ E input start n only = (log, Ok obj) ->
  forall line, In line (canonical obj) -> has_linebreak line = false.
Proof.
  intros H line Hin.
  apply post_init_Ok_inv in H
    as (log0 & rstr & start' & form & r & pv & _ & _ & _ & _ & -> & _).
  cbn [canonical] in Hin. apply filter_In in Hin as [Hin _].
  exact (splitlines_no_linebreak _ _ Hin).
Qed.

End ConstructionInvariants.

Lemma preview_positive_witness :
  exists log obj,
    0 < 2 /\
    __post_init__ Sample.engines "freq=daily;count=3" Sample.d2024_01_01 2 true
    = (log, Ok obj) /\
    List.length (preview_dts obj) = 2%nat.
Proof.
  eexists. eexists.
  assert (Hn : 0 < 2) by lia.
  assert (H : __post_init__ Sample.engines "freq=daily;count=3"
                Sample.d2024_01_01 2 true = (_, Ok _)) by reflexivity.
  split; [exact Hn|]. split; [exact H|].
  exact (proj1 (proj2 (preview_positive Sample.engines _ _ _ _ _ _ Hn H))).
Defined.

Lemma single_sub_daily_rule_witness :
  let input := "FREQ=HOURLY;COUNT=2" in
  let start := Sample.d2024_01_01 in
  let r := Sample.plain_rule HOURLY (Some 2) None start in
  select_rule_text Sample.engines input start = ([], Ok (input, start, "rrule")) /\
  rrulestr Sample.engines (Str.join Str.NL (canonical_lines input)) start
  = Ok (Single r) /\
  sub_daily (_freq r) /\
  snd (__post_init__ Sample.engines input start 5 true) = Raise GranularityError.
Proof.
  intros input start r.
  assert (Hsel : select_rule_text Sample.engines input start
                 = ([], Ok (input, start, "rrule"))) by reflexivity.
  assert (Hrr : rrulestr Sample.engines
                  (Str.join Str.NL (canonical_lines input)) start
                = Ok (Single r)) by reflexivity.
  assert (Hs : sub_daily (_freq r)) by (left; reflexivity).
  split; [exact Hsel|]. split; [exact Hrr|]. split; [exact Hs|].
  exact (proj1 (single_sub_daily_rule Sample.engines input start 5
                  _ _ _ _ _ Hsel Hrr Hs)).
Defined.

Lemma engine_calls_witness :
  let phrase := "every day starting next tuesday until feb" in
  exists log res,
    __post_init__ Sample.engines phrase Sample.d2010_01_01 5 true = (log, res) /\
    Str.contains "FREQ=" (Str.upper phrase) = false /\
    (log = [NLParse Sample.d2010_01_01 phrase] \/
     exists text anchor,
       log = [NLParse Sample.d2010_01_01 phrase; RRuleStr text anchor]).
Proof.
  intros phrase. eexists. eexists.
  assert (H : __post_init__ Sample.engines phrase Sample.d2010_01_01 5 true
              = (_, _)) by reflexivity.
  assert (Hc : Str.contains "FREQ=" (Str.upper phrase) = false) by reflexivity.
  split; [exact H|]. split; [exact Hc|].
  exact (proj2 (engine_calls Sample.engines _ _ _ _ _ _ H) Hc).
Defined.

Lemma natural_language_failures_witness :
  let input := "once upon a time" in
  let start := Sample.d2010_01_01 in
  Str.contains "FREQ=" (Str.upper input) = false /\
  __post_init__ Sample.engines input start 5 true
  = ([NLParse start "starting 2010-01-01 00:00:00, once upon a time"],
     Raise (not_recurring Sample.engines input)).
Proof.
  intros input start.
  assert (Hc : Str.contains "FREQ=" (Str.upper input) = false) by reflexivity.
  split; [exact Hc|].
  exact (proj2 (natural_language_failures Sample.engines input start 5 true Hc)
               (mk_RecurringEvent false "" None) eq_refl eq_refl).
Defined.

Lemma constructed_object_invariants_witness :
  exists log obj,
    __post_init__ Sample.engines "every day starting next tuesday until feb"
                  Sample.d2010_01_01 5 true
    = (log, Ok obj) /\
    rrulestr Sample.engines (Str.join Str.NL (canonical obj)) (start_dt obj)
    = Ok (rr obj) /\
    getitem_slice (iterate Sample.engines (rr obj)) (num_preview obj)
    = Ok (preview_dts obj).
Proof.
  eexists. eexists.
  assert (H : __post_init__ Sample.engines
                "every day starting next tuesday until feb"
                Sample.d2010_01_01 5 true = (_, Ok _)) by reflexivity.
  split; [exact H|].
  destruct (constructed_object_invariants Sample.engines _ _ _ _ _ _ H)
    as (_ & _ & _ & _ & _ & _ & Hrr & _ & Hpv).
  split; [exact Hrr | exact Hpv].
Defined.

Lemma preview_is_prefix_witness :
  exists log obj,
    __post_init__ Sample.engines "FREQ=DAILY;COUNT=3" Sample.d2024_01_01 2 true
    = (log, Ok obj) /\
    preview_dts obj = first_items 2 (iterate Sample.engines (rr obj)) /\
    preview_dts obj
    = first_items (List.length (preview_dts obj))
                  (iterate Sample.engines (rr obj)).
Proof.
  eexists. eexists.
  assert (H : __post_init__ Sample.engines "FREQ=DAILY;COUNT=3"
                Sample.d2024_01_01 2 true = (_, Ok _)) by reflexivity.
  split; [exact H|]. split; [reflexivity|].
  exact (proj1 (preview_is_prefix Sample.engines _ _ _ _ _ _ H)).
Defined.

Lemma num_preview_out_of_range_witness :
  let input := "FREQ=DAILY;COUNT=3" in
  let start := Sample.d2024_01_01 in
  let r := Sample.plain_rule DAILY (Some 3) None start in
  select_rule_text Sample.engines input start = ([], Ok (input, start, "rrule")) /\
  rrulestr Sample.engines (Str.join Str.NL (canonical_lines input)) start
  = Ok (Single r) /\
  (true = true -> _rule_has_time_components r = false) /\
  snd (__post_init__ Sample.engines input start (-1) true)
  = Raise islice_stop_error /\
  - sys_maxsize - 1 <= -2 < -1 /\
  snd (__post_init__ Sample.engines input start (-2) true)
  = Raise islice_indices_error.
Proof.
  intros input start r.
  assert (Hsel : select_rule_text Sample.engines input start
                 = ([], Ok (input, start, "rrule"))) by reflexivity.
  assert (Hrr : rrulestr Sample.engines
                  (Str.join Str.NL (canonical_lines input)) start
                = Ok (Single r)) by reflexivity.
  assert (Hg : true = true -> _rule_has_time_components r = false)
    by (intros _; reflexivity).
  assert (Hmax : 0 < sys_maxsize) by reflexivity.
  assert (Hn : - sys_maxsize - 1 <= -2 < -1) by lia.
  split; [exact Hsel|]. split; [exact Hrr|]. split; [exact Hg|].
  split; [|split; [exact Hn|]].
  - exact (proj1 (num_preview_out_of_range Sample.engines input start (-1) true
                    _ _ _ _ _ Hsel Hrr Hg) (or_introl eq_refl)).
  - exact (proj2 (num_preview_out_of_range Sample.engines input start (-2) true
                    _ _ _ _ _ Hsel Hrr Hg) Hn).
Defined.

Lemma iteration_failure_comes_through_witness :
  let input := "FREQ=MINUTELY;INTERVAL=1440;BYHOUR=5" in
  let start := Sample.d2024_01_01 in
  let r := Sample.minutely_1440_at_5 start in
  let E := Sample.engines in
  select_rule_text E input start = ([], Ok (input, start, "rrule")) /\
  rrulestr E (Str.join Str.NL (canonical_lines input)) start = Ok (Single r) /\
  (false = true -> _rule_has_time_components r = false) /\
  Z.of_nat (List.length (@nil datetime)) < 5 <= sys_maxsize /\
  iterate E (Single r) = then_ [] (Throw Sample.empty_rule_error) /\
  snd (__post_init__ E input start 5 false) = Raise Sample.empty_rule_error.
Proof.
  intros input start r E.
  assert (Hsel : select_rule_text E input start
                 = ([], Ok (input, start, "rrule"))) by reflexivity.
  assert (Hrr : rrulestr E (Str.join Str.NL (canonical_lines input)) start
                = Ok (Single r)) by reflexivity.
  assert (Hg : false = true -> _rule_has_time_components r = false)
    by discriminate.
  assert (Hmax : 5 <= sys_maxsize) by discriminate.
  assert (Hn : Z.of_nat (List.length (@nil datetime)) < 5 <= sys_maxsize)
    by (split; [reflexivity | exact Hmax]).
  assert (Hit : iterate E (Single r) = then_ [] (Throw Sample.empty_rule_error))
    by reflexivity.
  split; [exact Hsel|]. split; [exact Hrr|]. split; [exact Hg|].
  split; [exact Hn|]. split; [exact Hit|].
  exact (proj1 (iteration_failure_comes_through E input start 5 false
                  _ _ _ _ _ [] Hsel Hrr Hg Hn) Sample.empty_rule_error Hit).
Defined.

Lemma start_dt_after_construction_witness :
  let phrase := "every day starting next tuesday until feb" in
  exists log obj,
    __post_init__ Sample.engines phrase Sample.d2010_01_01 5 true
    = (log, Ok obj) /\
    Str.contains "FREQ=" (Str.upper phrase) = false /\
    start_dt obj = Sample.d2010_01_05 /\
    exists r,
      nl_parse Sample.engines Sample.d2010_01_01
               (nl_phrase Sample.engines phrase Sample.d2010_01_01) = Ok r /\
      is_recurring r = true.
Proof.
  intros phrase. eexists. eexists.
  assert (H : __post_init__ Sample.engines phrase Sample.d2010_01_01 5 true
              = (_, Ok _)) by reflexivity.
  assert (Hc : Str.contains "FREQ=" (Str.upper phrase) = false) by reflexivity.
  split; [exact H|]. split; [exact Hc|]. split; [reflexivity|].
  destruct (proj2 (start_dt_after_construction Sample.engines _ _ _ _ _ _ H) Hc)
    as (r & Hnl & Hrec & _).
  exists r. split; [exact Hnl | exact Hrec].
Defined.

Lemma canonical_lines_are_single_lines_witness :
  exists log obj,
    __post_init__ Sample.engines "every day starting next tuesday until feb"
                  Sample.d2010_01_01 5 true
    = (log, Ok obj) /\
    forall line, In line (canonical obj) -> has_linebreak line = false.
Proof.
  eexists. eexists.
  assert (H : __post_init__ Sample.engines
                "every day starting next tuesday until feb"
                Sample.d2010_01_01 5 true = (_, Ok _)) by reflexivity.
  split; [exact H|].
  exact (canonical_lines_are_single_lines Sample.engines _ _ _ _ _ _ H).
Defined.

(* ===================================================================== *)
(** ** Reading a rule mapping back *)

Lemma rule_keys_NoDup : NoDup RULE_KEYS.
Proof.
  unfold RULE_KEYS.
  repeat (constructor; [simpl; intuition discriminate|]). constructor.
Qed.

Lemma dict_get_None (k : string) (d : pydict) :
  ~ In k (map fst d) -> dict_get k d = None.
Proof.
  induction d as [|[k' v] d IH]; simpl; [reflexivity|].
  intros Hnot. destruct (String.eqb k k') eqn:Hk.
  - apply String.eqb_eq in Hk. subst k'. tauto.
  - apply IH. tauto.
Qed.

Lemma dict_get_filter (f : string * pyval -> bool) (k : string) (d : pydict) :
  NoDup (map fst d) ->
  dict_get k (filter f d)
  = match dict_get k d with
    | Some v => if f (k, v) then Some v else None
    | None => None
    end.
Proof.
  induction d as [|[k' v] d IH]; simpl; intros Hnd; [reflexivity|].
  inversion Hnd as [|x xs Hnot Hnd']; subst.
  destruct (String.eqb k k') eqn:Hk.
  - apply String.eqb_eq in Hk. subst k'.
    destruct (f (k, v)); simpl.
    + now rewrite String.eqb_refl.
    + apply dict_get_None. intros Hin. apply Hnot.
      apply in_map_iff in Hin as (kv & Hfst & Hin).
      apply filter_In in Hin as [Hin _]. apply in_map_iff. now exists kv.
  - destruct (f (k', v)); simpl; [rewrite Hk|]; now apply IH.
Qed.

Section ReadingBack.

Variable E : Collaborators.

(** Every attribute can be read back from the mapping of a rule: [freq]
    is always there and holds one of the seven frequency names,
    [interval] is always there, [count], [until] and [dtstart] are there
    exactly when the attribute is set, a by-field is there exactly when it
    holds a non-empty tuple or set, with that tuple or set as its value,
    and no other key is there. *)
Theorem rrule_to_dict_lookup (rule : rrule) :
  let d := rrule_to_dict E rule in
  let stamp := fun u => PyStr (isoformat E u) in
  (exists name, In name FREQNAMES /\ dict_get "freq" d = Some (PyStr name) /\
                nth_error FREQNAMES (freq_code (_freq rule)) = Some name) /\
  dict_get "interval" d = Some (PyInt (_interval rule)) /\
  dict_get "count" d = option_map PyInt (_count rule) /\
  dict_get "until" d = option_map stamp (_until rule) /\
  dict_get "byweekday" d = by_entry (_byweekday rule) /\
  dict_get "bymonthday" d = by_entry (_bymonthday rule) /\
  dict_get "bymonth" d = by_entry (_bymonth rule) /\
  dict_get "byhour" d = by_entry (_byhour rule) /\
  dict_get "byminute" d = by_entry (_byminute rule) /\
  dict_get "bysecond" d = by_entry (_bysecond rule) /\
  dict_get "dtstart" d = option_map stamp (_dtstart rule) /\
  dict_get "bysetpos" d = by_entry (_bysetpos rule) /\
  forall k, ~ In k RULE_KEYS -> dict_get k d = None.
Proof.
  intros d stamp. unfold d, rrule_to_dict. split.
  { exists (nth (freq_code (_freq rule)) FREQNAMES "").
    rewrite dict_get_filter by exact rule_keys_NoDup. simpl.
    destruct (_freq rule); simpl; repeat split; tauto. }
  repeat split;
    try (rewrite dict_get_filter by exact rule_keys_NoDup; simpl).
  - destruct (_count rule); reflexivity.
  - destruct (_until rule); reflexivity.
  - destruct (_byweekday rule) as [|[|x xs]|[|x xs]]; reflexivity.
  - destruct (_bymonthday rule) as [|[|x xs]|[|x xs]]; reflexivity.
  - destruct (_bymonth rule) as [|[|x xs]|[|x xs]]; reflexivity.
  - destruct (_byhour rule) as [|[|x xs]|[|x xs]]; reflexivity.
  - destruct (_byminute rule) as [|[|x xs]|[|x xs]]; reflexivity.
  - destruct (_bysecond rule) as [|[|x xs]|[|x xs]]; reflexivity.
  - destruct (_dtstart rule); reflexivity.
  - destruct (_bysetpos rule) as [|[|x xs]|[|x xs]]; reflexivity.
  - intros k Hnot. apply dict_get_None. intros Hin. apply Hnot.
    apply in_map_iff in Hin as (kv & Hfst & Hin).
    apply filter_In in Hin as [Hin _].
    apply (in_map fst) in Hin. rewrite Hfst in Hin. exact Hin.
Qed.

End ReadingBack.
